(** * Positioning and interaction engine of the social/discord message chart plugins

    Shallow embedding of
    - [discord-message/positioning/*] and [social-message/positioning/*]
      (fixed and draggable positioning strategies),
    - [DiscordMessagePrimitive] (hit test, hover, click, drag state machine,
      mode switch, detachment),
    - [MessagesState], [AnimationScheduler], [calculateCardHeight],
    - the pane views that build the per-frame renderer data.

    Pixel coordinates and prices are modelled as [Z]; the host (chart and
    series coordinate conversion, bounding rectangle of the chart element)
    is a record of functions.  A drag threshold test
    [Math.sqrt(dx*dx + dy*dy) < 5] is written as [dx*dx + dy*dy < 25],
    which is the same test since the square root is monotone and
    [sqrt 25 = 5]. *)

From Stdlib Require Import ZArith Lia.
From stdpp Require Import base gmap strings list.

Open Scope Z_scope.

(** ** Data model ([discord-message/options.ts]) *)

Definition Time := Z.

Record DiscordMessage := {
  id : string;
  time : Time;
  price : Z;
  username : string;
  message : string;
  timestamp : string;
  discordUrl : string;
  avatarUrl : option string;
  usernameColor : option string;
}.

Inductive PositioningMode := Mfixed | Mdraggable.

Definition PositioningMode_eqb (a b : PositioningMode) : bool :=
  match a, b with
  | Mfixed, Mfixed | Mdraggable, Mdraggable => true
  | _, _ => false
  end.

Record DiscordMessageOptions := {
  positioningMode : PositioningMode;
  cardBackgroundColor : string;
  cardBorderColor : string;
  cardBorderRadius : Z;
  usernameColorOpt : string;  (** option [usernameColor], renamed: the
                                  message record has a field of that name *)
  usernameFont : string;
  messageColor : string;
  messageFont : string;
  timestampColor : string;
  timestampFont : string;
  cardWidth : Z;
  cardPadding : Z;
  lineHeight : Z;
  showDiscordLogo : bool;
  showAvatar : bool;
  hoverBackgroundColor : string;
  cursorOnHover : string;
}.

Definition defaultOptions : DiscordMessageOptions := {|
  positioningMode := Mfixed;
  cardBackgroundColor := "#36393f";
  cardBorderColor := "#202225";
  cardBorderRadius := 8;
  usernameColorOpt := "#ffffff";
  usernameFont := "bold 14px sans-serif";
  messageColor := "#dcddde";
  messageFont := "12px sans-serif";
  timestampColor := "#72767d";
  timestampFont := "10px sans-serif";
  cardWidth := 280;
  cardPadding := 12;
  lineHeight := 18;
  showDiscordLogo := true;
  showAvatar := false;
  hoverBackgroundColor := "#2f3136";
  cursorOnHover := "pointer";
|}.

(** [utils/layout.ts]: [calculateCardHeight]. *)
Definition calculateCardHeight (o : DiscordMessageOptions) : Z :=
  cardPadding o * 2 + lineHeight o * 3.

(** ** Host: coordinate conversion of the chart and the series *)

Record Host := {
  timeToCoordinate : Time -> option Z;
  priceToCoordinate : Z -> option Z;
  coordinateToTime : Z -> option Time;
  coordinateToPrice : Z -> option Z;
  rectLeft : Z;   (** [chartElement().getBoundingClientRect().left] *)
  rectTop : Z;
}.

(** [AnchorPoint] = [{x: Coordinate | null; y: Coordinate | null}]. *)
Definition AnchorPoint := (option Z * option Z)%type.

(** [MouseEventData] passed to the strategies: [{x, y, event}]; the
    strategies never read [event]. *)
Definition MouseEventData := (Z * Z)%type.

(** ** Fixed positioning strategy ([FixedPositioningStrategy]) *)

Definition fixed_resolveAnchor (h : Host) (m : DiscordMessage) : AnchorPoint :=
  (timeToCoordinate h (time m), priceToCoordinate h (price m)).

(** ** Draggable [resolveAnchor], textually identical in
    [discord-message] and [social-message]. *)

Abbreviation PixelOffsets := (gmap string (Z * Z)).

Definition draggable_resolveAnchor (h : Host) (offsets : PixelOffsets)
    (m : DiscordMessage) : AnchorPoint :=
  let baseX := timeToCoordinate h (time m) in
  let baseY := priceToCoordinate h (price m) in
  match offsets !! id m, baseX, baseY with
  | Some (offsetX, offsetY), Some bx, Some by_ => (Some (bx + offsetX), Some (by_ + offsetY))
  | _, _, _ => (baseX, baseY)
  end.

(** [message.time = newTime; message.price = newPrice]. *)
Definition set_time_price (newTime : Time) (newPrice : Z) (m : DiscordMessage) : DiscordMessage :=
  {| id := id m; time := newTime; price := newPrice;
     username := username m; message := message m;
     timestamp := timestamp m; discordUrl := discordUrl m;
     avatarUrl := avatarUrl m; usernameColor := usernameColor m |}.

(** ** [discord-message/positioning/draggable-positioning.ts] *)
Module DiscordDraggable.

Record DragState := {
  messageId : string;
  startX : Z;
  startY : Z;
  offsetX : Z;
  offsetY : Z;
  isDragging : bool;
}.

Record t := {
  _dragState : option DragState;
  _pixelOffsets : PixelOffsets;
}.

Definition empty : t := {| _dragState := None; _pixelOffsets := ∅ |}.

Definition resolveAnchor (h : Host) (s : t) (m : DiscordMessage) : AnchorPoint :=
  draggable_resolveAnchor h (_pixelOffsets s) m.

Definition handleMouseDown (h : Host) (s : t) (m : DiscordMessage)
    (ev : MouseEventData) : t :=
  match resolveAnchor h s m with
  | (Some _, Some _) =>
      {| _dragState := Some {| messageId := id m; startX := ev.1; startY := ev.2;
                               offsetX := 0; offsetY := 0; isDragging := true |};
         _pixelOffsets := _pixelOffsets s |}
  | _ => s
  end.

Definition handleMouseMove (s : t) (m : DiscordMessage) (ev : MouseEventData) : t :=
  match _dragState s with
  | Some d =>
      if String.eqb (messageId d) (id m) then
        let offsetX := ev.1 - startX d in
        let offsetY := ev.2 - startY d in
        {| _dragState := Some {| messageId := messageId d; startX := startX d;
                                 startY := startY d; offsetX := offsetX;
                                 offsetY := offsetY; isDragging := isDragging d |};
           _pixelOffsets := <[id m := (offsetX, offsetY)]> (_pixelOffsets s) |}
      else s
  | None => s
  end.

(** [handleMouseUp] mutates [message.time] / [message.price] in place; it
    returns the updated message value, and the caller ([_onDocumentMouseUp])
    puts that value wherever the object is held. *)
Definition handleMouseUp (h : Host) (s : t) (m : DiscordMessage)
    (_ev : MouseEventData) : t * DiscordMessage :=
  match _dragState s with
  | Some d =>
      if String.eqb (messageId d) (id m) then
        let '(s', m') :=
          match resolveAnchor h s m with
          | (Some ax, Some ay) =>
              match coordinateToTime h ax, coordinateToPrice h ay with
              | Some newTime, Some newPrice =>
                  ({| _dragState := _dragState s;
                      _pixelOffsets := delete (id m) (_pixelOffsets s) |},
                   set_time_price newTime newPrice m)
              | _, _ => (s, m)
              end
          | _ => (s, m)
          end in
        ({| _dragState := None; _pixelOffsets := _pixelOffsets s' |}, m')
      else (s, m)
  | None => (s, m)
  end.

Definition detach (_s : t) : t := empty.

End DiscordDraggable.

(** ** [social-message/positioning/draggable-positioning.ts] *)
Module SocialDraggable.

Record DragState := {
  messageId : string;
  startX : Z;
  startY : Z;
  initialOffsetX : Z;
  initialOffsetY : Z;
  isDragging : bool;
}.

Record t := {
  _dragState : option DragState;
  _pixelOffsets : PixelOffsets;
}.

Definition empty : t := {| _dragState := None; _pixelOffsets := ∅ |}.

Definition resolveAnchor (h : Host) (s : t) (m : DiscordMessage) : AnchorPoint :=
  draggable_resolveAnchor h (_pixelOffsets s) m.

Definition handleMouseDown (h : Host) (s : t) (m : DiscordMessage)
    (ev : MouseEventData) : t :=
  match resolveAnchor h s m with
  | (Some _, Some _) =>
      let existingOffset := default (0, 0) (_pixelOffsets s !! id m) in
      {| _dragState := Some {| messageId := id m; startX := ev.1; startY := ev.2;
                               initialOffsetX := existingOffset.1;
                               initialOffsetY := existingOffset.2;
                               isDragging := true |};
         _pixelOffsets := _pixelOffsets s |}
  | _ => s
  end.

Definition handleMouseMove (s : t) (m : DiscordMessage) (ev : MouseEventData) : t :=
  match _dragState s with
  | Some d =>
      if String.eqb (messageId d) (id m) then
        let dragDeltaX := ev.1 - startX d in
        let dragDeltaY := ev.2 - startY d in
        let newOffsetX := initialOffsetX d + dragDeltaX in
        let newOffsetY := initialOffsetY d + dragDeltaY in
        {| _dragState := _dragState s;
           _pixelOffsets := <[id m := (newOffsetX, newOffsetY)]> (_pixelOffsets s) |}
      else s
  | None => s
  end.

(** Keeps the offset and leaves [message.time] / [message.price] alone. *)
Definition handleMouseUp (s : t) (m : DiscordMessage) (_ev : MouseEventData)
    : t * DiscordMessage :=
  match _dragState s with
  | Some d =>
      if String.eqb (messageId d) (id m) then
        ({| _dragState := None; _pixelOffsets := _pixelOffsets s |}, m)
      else (s, m)
  | None => (s, m)
  end.

Definition detach (_s : t) : t := empty.



End SocialDraggable.

(** ** [MessagesState]: a [Map<string, DiscordMessage>], written as the list
    of its entries in key-insertion order; [Map.set] on a present key keeps
    its position.  The functions below are the Map operations of the store's
    methods; the store object itself is the module [MessagesState]. *)

Fixpoint map_set (m : DiscordMessage) (l : list DiscordMessage) : list DiscordMessage :=
  match l with
  | [] => [m]
  | m' :: l' => if String.eqb (id m') (id m) then m :: l' else m' :: map_set m l'
  end.

Definition map_has (k : string) (l : list DiscordMessage) : bool :=
  existsb (fun m => String.eqb (id m) k) l.

Definition addMessage (m : DiscordMessage) (l : list DiscordMessage) :=
  map_set m l.

Definition removeMessage (k : string) (l : list DiscordMessage) :=
  if map_has k l then filter (fun m => negb (String.eqb (id m) k)) l else l.

Definition updateMessage (m : DiscordMessage) (l : list DiscordMessage) :=
  if map_has (id m) l then map_set m l else l.

(** [this._messages.get(id)]. *)
Definition getMessage (k : string) (l : list DiscordMessage) : option DiscordMessage :=
  find (fun m => String.eqb (id m) k) l.

(** The store object of part_006.  [_messages] is the Map (as the list of
    its entries above), [_messagesArray] the array [messages()] returns, and
    [_subscribed] whether the constructor's [_messagesChanged] listener
    [_updateMessagesArray] is still registered: [destroy()] removes it with
    [unsubscribeAll(this)].  The other delegates ([_messageAdded], ...) and
    the primitive's own [requestUpdate] listener change no state here. *)
Module MessagesState.

Record t := mk {
  _messages : list DiscordMessage;
  _messagesArray : list DiscordMessage;
  _subscribed : bool
}.

(** [constructor]: an empty Map, [_messagesArray = []], listener set. *)
Definition init : t := mk [] [] true.

(** [_updateMessagesArray]: [Array.from(this._messages.values())]. *)
Definition _updateMessagesArray (st : t) : t :=
  mk (_messages st) (_messages st) (_subscribed st).

(** [this._messagesChanged.fire()]. *)
Definition fire_messagesChanged (st : t) : t :=
  if _subscribed st then _updateMessagesArray st else st.

Definition set_messages (l : list DiscordMessage) (st : t) : t :=
  mk l (_messagesArray st) (_subscribed st).

Definition destroy (st : t) : t :=
  mk (_messages st) (_messagesArray st) false.

Definition addMessage (m : DiscordMessage) (st : t) : t :=
  fire_messagesChanged (set_messages (addMessage m (_messages st)) st).

Definition removeMessage (k : string) (st : t) : t :=
  if map_has k (_messages st)
  then fire_messagesChanged
         (set_messages (filter (fun m => negb (String.eqb (id m) k)) (_messages st)) st)
  else st.

Definition updateMessage (m : DiscordMessage) (st : t) : t :=
  if map_has (id m) (_messages st)
  then fire_messagesChanged (set_messages (map_set m (_messages st)) st)
  else st.

Definition getMessage (k : string) (st : t) : option DiscordMessage :=
  getMessage k (_messages st).

Definition messages (st : t) : list DiscordMessage := _messagesArray st.

(** An assignment to fields of the message object with id [id m'] that the
    array holds, e.g. [message.time = ...] in a strategy's [handleMouseUp]:
    the array element with that id becomes [m'].  The Map's entry for the
    object is not touched here: every such assignment in the primitive is
    followed by [updateMessage], which overwrites it. *)
Definition mutate_held (m' : DiscordMessage) (st : t) : t :=
  mk (_messages st)
     (map (fun x => if String.eqb (id x) (id m') then m' else x) (_messagesArray st))
     (_subscribed st).

End MessagesState.

(** ** Active strategy of the primitive: [FixedPositioningStrategy] or the
    discord [DraggablePositioningStrategy].  The optional methods
    [handleMouseDown?] etc. are absent from the fixed strategy. *)

Inductive Strategy :=
| SFixed
| SDraggable (s : DiscordDraggable.t).

Definition strategy_resolveAnchor (h : Host) (st : Strategy) (m : DiscordMessage) :=
  match st with
  | SFixed => fixed_resolveAnchor h m
  | SDraggable s => DiscordDraggable.resolveAnchor h s m
  end.

Definition strategy_handleMouseDown h st m ev :=
  match st with
  | SFixed => SFixed
  | SDraggable s => SDraggable (DiscordDraggable.handleMouseDown h s m ev)
  end.

Definition strategy_handleMouseMove st m ev :=
  match st with
  | SFixed => SFixed
  | SDraggable s => SDraggable (DiscordDraggable.handleMouseMove s m ev)
  end.

Definition strategy_handleMouseUp h st m ev : Strategy * DiscordMessage :=
  match st with
  | SFixed => (SFixed, m)
  | SDraggable s =>
      let '(s', m') := DiscordDraggable.handleMouseUp h s m ev in (SDraggable s', m')
  end.

Definition strategy_offsets (st : Strategy) : PixelOffsets :=
  match st with
  | SFixed => ∅
  | SDraggable s => DiscordDraggable._pixelOffsets s
  end.

Definition strategy_detach (st : Strategy) : Strategy :=
  match st with
  | SFixed => SFixed
  | SDraggable s => SDraggable (DiscordDraggable.detach s)
  end.

(** ** [AnimationScheduler] ([utils/animation-scheduler.ts]).  The only
    callback ever scheduled is [() => this.requestUpdate()]. *)

Inductive Callback := requestUpdateCb.

Record AnimationScheduler := {
  _rafId : option nat;
  _callback : option Callback;
}.

(** Browser and host side: listeners registered on [document] and on the
    chart element (each [bind] creates a distinct function, so every
    [addEventListener] adds one listener), pending animation frames, pending
    [setTimeout] callbacks, the chart's [pressedMouseMove] scroll option
    and the URLs passed to [window.open]. *)
Record Env := {
  chartAttached : bool;
  docMoveListeners : nat;
  docUpListeners : nat;
  mouseDownListeners : nat;
  rafQueue : list nat;
  rafNext : nat;
  pendingTimeouts : nat;
  pressedMouseMove : bool;
  openedUrls : list string;
}.

Definition schedule (sch : AnimationScheduler) (e : Env) (cb : Callback)
    : AnimationScheduler * Env :=
  let q := match _rafId sch with
           | Some r => filter (fun r' => negb (Nat.eqb r r')) (rafQueue e)
           | None => rafQueue e
           end in
  let r := rafNext e in
  ({| _rafId := Some r; _callback := Some cb |},
   {| chartAttached := chartAttached e; docMoveListeners := docMoveListeners e;
      docUpListeners := docUpListeners e; mouseDownListeners := mouseDownListeners e;
      rafQueue := r :: q; rafNext := S r; pendingTimeouts := pendingTimeouts e;
      pressedMouseMove := pressedMouseMove e; openedUrls := openedUrls e |}).

Definition cancel (sch : AnimationScheduler) (e : Env) : AnimationScheduler * Env :=
  let q := match _rafId sch with
           | Some r => filter (fun r' => negb (Nat.eqb r r')) (rafQueue e)
           | None => rafQueue e
           end in
  ({| _rafId := None; _callback := None |},
   {| chartAttached := chartAttached e; docMoveListeners := docMoveListeners e;
      docUpListeners := docUpListeners e; mouseDownListeners := mouseDownListeners e;
      rafQueue := q; rafNext := rafNext e; pendingTimeouts := pendingTimeouts e;
      pressedMouseMove := pressedMouseMove e; openedUrls := openedUrls e |}).

Definition isPending (sch : AnimationScheduler) : bool :=
  match _rafId sch with Some _ => true | None => false end.

(** ** [DiscordMessagePrimitive] state *)

Record Prim := {
  _state : MessagesState.t;
  _options : DiscordMessageOptions;
  _strategy : Strategy;
  _hoveredMessageId : option string;
  _dragState : option (string * DiscordMessage);  (** [{messageId, message}] *)
  _mouseDownHandler : bool;                       (** handler field non-null *)
  _documentMouseMoveHandler : bool;
  _documentMouseUpHandler : bool;
  _isDragging : bool;
  _dragStartPos : option (Z * Z);
  _animationScheduler : AnimationScheduler;
  env : Env;
}.

Definition set_state v s := let '(Build_Prim _ b c d e f g h i j k l) := s in Build_Prim v b c d e f g h i j k l.
Definition set_options v s := let '(Build_Prim a _ c d e f g h i j k l) := s in Build_Prim a v c d e f g h i j k l.
Definition set_strategy v s := let '(Build_Prim a b _ d e f g h i j k l) := s in Build_Prim a b v d e f g h i j k l.
Definition set_hoveredMessageId v s := let '(Build_Prim a b c _ e f g h i j k l) := s in Build_Prim a b c v e f g h i j k l.
Definition set_dragState v s := let '(Build_Prim a b c d _ f g h i j k l) := s in Build_Prim a b c d v f g h i j k l.
Definition set_mouseDownHandler v s := let '(Build_Prim a b c d e _ g h i j k l) := s in Build_Prim a b c d e v g h i j k l.
Definition set_documentMouseMoveHandler v s := let '(Build_Prim a b c d e f _ h i j k l) := s in Build_Prim a b c d e f v h i j k l.
Definition set_documentMouseUpHandler v s := let '(Build_Prim a b c d e f g _ i j k l) := s in Build_Prim a b c d e f g v i j k l.
Definition set_isDragging v s := let '(Build_Prim a b c d e f g h _ j k l) := s in Build_Prim a b c d e f g h v j k l.
Definition set_dragStartPos v s := let '(Build_Prim a b c d e f g h i _ k l) := s in Build_Prim a b c d e f g h i v k l.
Definition set_animationScheduler v s := let '(Build_Prim a b c d e f g h i j _ l) := s in Build_Prim a b c d e f g h i j v l.
Definition set_env v s := let '(Build_Prim a b c d e f g h i j k _) := s in Build_Prim a b c d e f g h i j k v.

Definition env_set_attached v e := let '(Build_Env _ b c d f g h i j) := e in Build_Env v b c d f g h i j.
Definition env_set_docMove v e := let '(Build_Env a _ c d f g h i j) := e in Build_Env a v c d f g h i j.
Definition env_set_docUp v e := let '(Build_Env a b _ d f g h i j) := e in Build_Env a b v d f g h i j.
Definition env_set_mouseDown v e := let '(Build_Env a b c _ f g h i j) := e in Build_Env a b c v f g h i j.
Definition env_set_rafQueue v e := let '(Build_Env a b c d _ g h i j) := e in Build_Env a b c d v g h i j.
Definition env_set_timeouts v e := let '(Build_Env a b c d f g _ i j) := e in Build_Env a b c d f g v i j.
Definition env_set_pan v e := let '(Build_Env a b c d f g h _ j) := e in Build_Env a b c d f g h v j.
Definition env_set_opened v e := let '(Build_Env a b c d f g h i _) := e in Build_Env a b c d f g h i v.

Definition set_positioningMode (md : PositioningMode) (o : DiscordMessageOptions) :=
  let '(Build_DiscordMessageOptions _ b c d e f g h i j k l m n p q r) := o in
  Build_DiscordMessageOptions md b c d e f g h i j k l m n p q r.

(** [Partial<DiscordMessageOptions>]: [None] is a key the object does not
    have; a present key holds a value of the option's type. *)
Record PartialOptions := {
  po_positioningMode : option PositioningMode;
  po_cardBackgroundColor : option string;
  po_cardBorderColor : option string;
  po_cardBorderRadius : option Z;
  po_usernameColor : option string;
  po_usernameFont : option string;
  po_messageColor : option string;
  po_messageFont : option string;
  po_timestampColor : option string;
  po_timestampFont : option string;
  po_cardWidth : option Z;
  po_cardPadding : option Z;
  po_lineHeight : option Z;
  po_showDiscordLogo : option bool;
  po_showAvatar : option bool;
  po_hoverBackgroundColor : option string;
  po_cursorOnHover : option string;
}.

(** [{ ...o, ...po }]: a key present in [po] overrides the one of [o]. *)
Definition mergeOptions (po : PartialOptions) (o : DiscordMessageOptions) : DiscordMessageOptions := {|
  positioningMode := default (positioningMode o) (po_positioningMode po);
  cardBackgroundColor := default (cardBackgroundColor o) (po_cardBackgroundColor po);
  cardBorderColor := default (cardBorderColor o) (po_cardBorderColor po);
  cardBorderRadius := default (cardBorderRadius o) (po_cardBorderRadius po);
  usernameColorOpt := default (usernameColorOpt o) (po_usernameColor po);
  usernameFont := default (usernameFont o) (po_usernameFont po);
  messageColor := default (messageColor o) (po_messageColor po);
  messageFont := default (messageFont o) (po_messageFont po);
  timestampColor := default (timestampColor o) (po_timestampColor po);
  timestampFont := default (timestampFont o) (po_timestampFont po);
  cardWidth := default (cardWidth o) (po_cardWidth po);
  cardPadding := default (cardPadding o) (po_cardPadding po);
  lineHeight := default (lineHeight o) (po_lineHeight po);
  showDiscordLogo := default (showDiscordLogo o) (po_showDiscordLogo po);
  showAvatar := default (showAvatar o) (po_showAvatar po);
  hoverBackgroundColor := default (hoverBackgroundColor o) (po_hoverBackgroundColor po);
  cursorOnHover := default (cursorOnHover o) (po_cursorOnHover po);
|}.

Section Primitive.

Variable h : Host.

(** [_messageAtPoint]: first message of [_state.messages()] whose resolved
    anchor is non-null and whose card box contains the point. *)
Fixpoint messageAtPoint_loop (st : Strategy) (o : DiscordMessageOptions)
    (ms : list DiscordMessage) (x y : Z) : option DiscordMessage :=
  match ms with
  | [] => None
  | m :: ms' =>
      match strategy_resolveAnchor h st m with
      | (Some ax, Some ay) =>
          let cw := cardWidth o in
          let ch := calculateCardHeight o in
          if (ax <=? x) && (x <=? ax + cw) && (ay <=? y) && (y <=? ay + ch)
          then Some m
          else messageAtPoint_loop st o ms' x y
      | _ => messageAtPoint_loop st o ms' x y
      end
  end.

Definition _messageAtPoint (s : Prim) (x y : Z) : option DiscordMessage :=
  messageAtPoint_loop (_strategy s) (_options s) (MessagesState.messages (_state s)) x y.

(** [_onCrosshairMove]; [param.point] is [None] when the crosshair left the
    chart.  [requestUpdate] only asks the host for a redraw. *)
Definition _onCrosshairMove (point : option (Z * Z)) (s : Prim) : Prim :=
  match _dragState s with
  | Some (_, dm) =>
      if _isDragging s then set_hoveredMessageId (Some (id dm)) s
      else
        match point with
        | None => set_hoveredMessageId None s
        | Some (px, py) =>
            set_hoveredMessageId (option_map id (_messageAtPoint s px py)) s
        end
  | None =>
      match point with
      | None => set_hoveredMessageId None s
      | Some (px, py) =>
          set_hoveredMessageId (option_map id (_messageAtPoint s px py)) s
      end
  end.

Definition _attachDragListeners (s : Prim) : Prim :=
  let s := set_env (env_set_mouseDown (S (mouseDownListeners (env s))) (env s)) s in
  set_mouseDownHandler true s.

Definition _removeDocumentDragListeners (s : Prim) : Prim :=
  let s := if _documentMouseMoveHandler s then
             set_documentMouseMoveHandler false
               (set_env (env_set_docMove (pred (docMoveListeners (env s))) (env s)) s)
           else s in
  if _documentMouseUpHandler s then
    set_documentMouseUpHandler false
      (set_env (env_set_docUp (pred (docUpListeners (env s))) (env s)) s)
  else s.

Definition _detachDragListeners (s : Prim) : Prim :=
  let s := _removeDocumentDragListeners s in
  let s := if _mouseDownHandler s then
             set_mouseDownHandler false
               (set_env (env_set_mouseDown (pred (mouseDownListeners (env s))) (env s)) s)
           else s in
  set_dragStartPos None (set_isDragging false (set_dragState None s)).

(** [chart.applyOptions({handleScroll: {pressedMouseMove: b, ...}})]. *)
Definition setPan (b : bool) (s : Prim) : Prim :=
  set_env (env_set_pan b (env s)) s.

(** A DOM [MouseEvent] as read by the handlers: [(clientX, clientY)]. *)
Definition MouseEvent := (Z * Z)%type.

Definition _onMouseDown (ev : MouseEvent) (s : Prim) : Prim :=
  let x := ev.1 - rectLeft h in
  let y := ev.2 - rectTop h in
  match _messageAtPoint s x y with
  | None => s
  | Some m =>
      let s := setPan false s in
      let s := set_dragState (Some (id m, m)) s in
      let s := set_isDragging false s in
      let s := set_dragStartPos (Some ev) s in
      let s := set_strategy (strategy_handleMouseDown h (_strategy s) m (x, y)) s in
      let s := set_documentMouseMoveHandler true
                 (set_env (env_set_docMove (S (docMoveListeners (env s))) (env s)) s) in
      set_documentMouseUpHandler true
        (set_env (env_set_docUp (S (docUpListeners (env s))) (env s)) s)
  end.

Definition dragThreshold : Z := 5.

Definition _onDocumentMouseMove (ev : MouseEvent) (s : Prim) : Prim :=
  match _dragState s, _dragStartPos s with
  | Some (_, dm), Some (sx, sy) =>
      let dx := ev.1 - sx in
      let dy := ev.2 - sy in
      if negb (_isDragging s) && (dx * dx + dy * dy <? dragThreshold * dragThreshold)
      then s
      else
        let s := set_isDragging true s in
        let x := ev.1 - rectLeft h in
        let y := ev.2 - rectTop h in
        let s := set_strategy (strategy_handleMouseMove (_strategy s) dm (x, y)) s in
        let '(sch, e) := schedule (_animationScheduler s) (env s) requestUpdateCb in
        set_env e (set_animationScheduler sch s)
  | _, _ => s
  end.

Definition _onDocumentMouseUp (ev : MouseEvent) (s : Prim) : Prim :=
  match _dragState s with
  | None => s
  | Some (mid, dm) =>
      let s :=
        if _isDragging s then
          let x := ev.1 - rectLeft h in
          let y := ev.2 - rectTop h in
          let '(st', dm') := strategy_handleMouseUp h (_strategy s) dm (x, y) in
          let s := set_dragState (Some (mid, dm')) (set_strategy st' s) in
          (* [handleMouseUp] assigns [message.time]/[message.price] on the
             dragged object itself.  Once [destroy()] has stopped the refresh
             of [messages()], the drag started from that frozen array, which
             holds the object as its element with id [id dm]; before that the
             array is rebuilt from the Map by [updateMessage] whenever the
             Map has the id, and holds no element with that id otherwise. *)
          let st := _state s in
          let st := if MessagesState._subscribed st then st
                    else MessagesState.mutate_held dm' st in
          set_state (MessagesState.updateMessage dm' st) s
        else s in
      let s := setPan true s in
      let s := _removeDocumentDragListeners s in
      let s := set_dragStartPos None (set_dragState None s) in
      (* setTimeout(() => { this._isDragging = false; }, 0) *)
      set_env (env_set_timeouts (S (pendingTimeouts (env s))) (env s)) s
  end.

Definition _clickHandler (point : option (Z * Z)) (s : Prim) : Prim :=
  match point with
  | None => s
  | Some (px, py) =>
      if _isDragging s then s
      else
        match _messageAtPoint s px py with
        | Some m => set_env (env_set_opened (openedUrls (env s) ++ [discordUrl m]) (env s)) s
        | None => s
        end
  end.

(** [new MouseEvent('mouseup', {...})]: [clientX] and [clientY] default to 0. *)
Definition syntheticMouseUp : MouseEvent := (0, 0).

Definition updatePositioningMode (mode : PositioningMode) (s : Prim) : Prim :=
  let s := match _dragState s with
           | Some _ => _onDocumentMouseUp syntheticMouseUp s
           | None => s
           end in
  let s := if PositioningMode_eqb (positioningMode (_options s)) Mdraggable
           then _detachDragListeners s else s in
  let s := set_strategy (strategy_detach (_strategy s)) s in
  let s := set_strategy (match mode with
                         | Mfixed => SFixed
                         | Mdraggable => SDraggable DiscordDraggable.empty
                         end) s in
  if PositioningMode_eqb mode Mdraggable && chartAttached (env s)
  then _attachDragListeners s else s.

Definition setPositioningMode (mode : PositioningMode) (s : Prim) : Prim :=
  let s := set_options (set_positioningMode mode (_options s)) s in
  updatePositioningMode mode s.

(** [applyOptions(options)]: [{ ...this._options, ...options }], then
    [updatePositioningMode] when [options.positioningMode] is set (both
    modes are non-empty strings, hence truthy). *)
Definition applyOptions (po : PartialOptions) (s : Prim) : Prim :=
  let s := set_options (mergeOptions po (_options s)) s in
  match po_positioningMode po with
  | Some md => updatePositioningMode md s
  | None => s
  end.

Definition attached (s : Prim) : Prim :=
  let s := set_env (env_set_attached true (env s)) s in
  if PositioningMode_eqb (positioningMode (_options s)) Mdraggable
  then _attachDragListeners s else s.

Definition detached (s : Prim) : Prim :=
  let s := _removeDocumentDragListeners s in
  let s := _detachDragListeners s in
  let '(sch, e) := cancel (_animationScheduler s) (env s) in
  let s := set_env e (set_animationScheduler sch s) in
  let s := set_strategy (strategy_detach (_strategy s)) s in
  (* [this._state.messagesChanged().unsubscribeAll(this)] removes the
     primitive's [requestUpdate] listener only; [this._state.destroy()]
     removes the store's own [_updateMessagesArray] listener. *)
  let s := set_state (MessagesState.destroy (_state s)) s in
  set_env (env_set_attached false (env s)) s.

(** The [setTimeout(..., 0)] callback. *)
Definition fireTimeout (s : Prim) : Prim :=
  match pendingTimeouts (env s) with
  | O => s
  | S n => set_isDragging false (set_env (env_set_timeouts n (env s)) s)
  end.

(** The [requestAnimationFrame] callback of the pending frame. *)
Definition fireAnimationFrame (s : Prim) : Prim :=
  match _rafId (_animationScheduler s) with
  | Some r =>
      let e := env_set_rafQueue (filter (fun r' => negb (Nat.eqb r r')) (rafQueue (env s))) (env s) in
      set_env e (set_animationScheduler {| _rafId := None; _callback := None |} s)
  | None => s
  end.

(** Events delivered by the host, and calls of the primitive's public
    methods that change its state.  A document or chart-element event runs
    once per registered listener; click and crosshair subscriptions exist
    while the primitive is attached. *)
Inductive Event :=
| EChartMouseDown (ev : MouseEvent)
| EDocMouseMove (ev : MouseEvent)
| EDocMouseUp (ev : MouseEvent)
| EClick (point : option (Z * Z))
| ECrosshairMove (point : option (Z * Z))
| ETimeout
| EAnimationFrame
| ESetPositioningMode (mode : PositioningMode)
| EUpdatePositioningMode (mode : PositioningMode)
| EApplyOptions (po : PartialOptions)
| EAddMessage (m : DiscordMessage)
| ERemoveMessage (k : string)
| EUpdateMessage (m : DiscordMessage)
| EAttached
| EDetached.

Definition step (e : Event) (s : Prim) : Prim :=
  match e with
  | EChartMouseDown ev => Nat.iter (mouseDownListeners (env s)) (_onMouseDown ev) s
  | EDocMouseMove ev => Nat.iter (docMoveListeners (env s)) (_onDocumentMouseMove ev) s
  | EDocMouseUp ev => Nat.iter (docUpListeners (env s)) (_onDocumentMouseUp ev) s
  | EClick p => if chartAttached (env s) then _clickHandler p s else s
  | ECrosshairMove p => if chartAttached (env s) then _onCrosshairMove p s else s
  | ETimeout => fireTimeout s
  | EAnimationFrame => fireAnimationFrame s
  | ESetPositioningMode md => setPositioningMode md s
  | EUpdatePositioningMode md => updatePositioningMode md s
  | EApplyOptions po => applyOptions po s
  | EAddMessage m => set_state (MessagesState.addMessage m (_state s)) s
  | ERemoveMessage k => set_state (MessagesState.removeMessage k (_state s)) s
  | EUpdateMessage m => set_state (MessagesState.updateMessage m (_state s)) s
  | EAttached => attached s
  | EDetached => detached s
  end.

Definition run (es : list Event) (s : Prim) : Prim :=
  fold_left (fun s e => step e s) es s.

End Primitive.

(** [new DiscordMessagePrimitive(options)], [options] already merged with
    [defaultOptions]; the constructor always starts with the fixed strategy. *)
Definition initial (o : DiscordMessageOptions) : Prim := {|
  _state := MessagesState.init;
  _options := o;
  _strategy := SFixed;
  _hoveredMessageId := None;
  _dragState := None;
  _mouseDownHandler := false;
  _documentMouseMoveHandler := false;
  _documentMouseUpHandler := false;
  _isDragging := false;
  _dragStartPos := None;
  _animationScheduler := {| _rafId := None; _callback := None |};
  env := {| chartAttached := false; docMoveListeners := 0; docUpListeners := 0;
            mouseDownListeners := 0; rafQueue := []; rafNext := 0;
            pendingTimeouts := 0; pressedMouseMove := true; openedUrls := [] |};
|}.

Definition reachable (h : Host) (s : Prim) : Prop :=
  exists o es, s = run h es (initial o).

(** ** Pane views: renderer data built on every [update()] *)

(** [RendererData] of [social-message/renderer/irenderer-data.ts], built by
    [SocialMessagePaneView.update] and by the [DiscordMessagePaneView] of
    [discord-message/view/] (the two [update] bodies are the same text). *)
Record RendererData := {
  rd_message : DiscordMessage;
  rd_x : Z;
  rd_y : Z;
  rd_anchorX : option Z;
  rd_anchorY : option Z;
  rd_options : DiscordMessageOptions;
  rd_isHovered : bool;
}.

Definition isHoveredId (m : DiscordMessage) (hoveredId : option string) : bool :=
  match hoveredId with Some k => String.eqb (id m) k | None => false end.

Fixpoint paneView_update_loop (h : Host) (st : Strategy) (o : DiscordMessageOptions)
    (hoveredId : option string) (ms : list DiscordMessage) : list RendererData :=
  match ms with
  | [] => []
  | m :: ms' =>
      match strategy_resolveAnchor h st m with
      | (Some ax, Some ay) =>
          let baseX := timeToCoordinate h (time m) in
          let baseY := priceToCoordinate h (price m) in
          {| rd_message := m; rd_x := ax; rd_y := ay; rd_anchorX := baseX;
             rd_anchorY := baseY; rd_options := o;
             rd_isHovered := isHoveredId m hoveredId |}
          :: paneView_update_loop h st o hoveredId ms'
      | _ => paneView_update_loop h st o hoveredId ms'
      end
  end.

Definition paneView_update (h : Host) (s : Prim) : list RendererData :=
  paneView_update_loop h (_strategy s) (_options s) (_hoveredMessageId s) (MessagesState.messages (_state s)).

(** [RendererData] of [discord-message/renderer/irenderer-data.ts], built by
    the [DiscordMessagePaneView] of [src/unnamed/part_008]. *)
Record RendererData008 := {
  rd8_message : DiscordMessage;
  rd8_x : Z;
  rd8_y : Z;
  rd8_options : DiscordMessageOptions;
  rd8_isHovered : bool;
}.

Fixpoint paneView008_update_loop (h : Host) (st : Strategy) (o : DiscordMessageOptions)
    (hoveredId : option string) (ms : list DiscordMessage) : list RendererData008 :=
  match ms with
  | [] => []
  | m :: ms' =>
      match strategy_resolveAnchor h st m with
      | (Some ax, Some ay) =>
          {| rd8_message := m; rd8_x := ax; rd8_y := ay; rd8_options := o;
             rd8_isHovered := isHoveredId m hoveredId |}
          :: paneView008_update_loop h st o hoveredId ms'
      | _ => paneView008_update_loop h st o hoveredId ms'
      end
  end.

Definition paneView008_update (h : Host) (s : Prim) : list RendererData008 :=
  paneView008_update_loop h (_strategy s) (_options s) (_hoveredMessageId s) (MessagesState.messages (_state s)).

(** ** [options()]: [return { ...this._options }].

    Objects live in a heap; the primitive's [_options] field holds the
    location of its options object.  Every field of [DiscordMessageOptions]
    is a string, number, boolean or mode literal, so the spread copies the
    whole record into a fresh object. *)
Module OptionsHeap.

Abbreviation loc := positive.
Abbreviation heap := (gmap loc DiscordMessageOptions).

Definition options (optionsLoc : loc) (hp : heap) : option (loc * heap) :=
  match hp !! optionsLoc with
  | Some o => let l := fresh (dom hp) in Some (l, <[l := o]> hp)
  | None => None
  end.

(** Any assignment to fields of the object at [l]. *)
Definition mutate (l : loc) (f : DiscordMessageOptions -> DiscordMessageOptions)
    (hp : heap) : heap :=
  match hp !! l with
  | Some o => <[l := f o]> hp
  | None => hp
  end.

End OptionsHeap.

(** Events that change the set of stored ids: [addMessage] and
    [removeMessage]. *)
Definition adds_or_removes (e : Event) : bool :=
  match e with EAddMessage _ | ERemoveMessage _ => true | _ => false end.

(** [PrimitiveHoveredItem] returned by [hitTest]. *)
Record PrimitiveHoveredItem := {
  cursorStyle : string;
  externalId : string;
  zOrder : string;
}.

(** [DiscordMessagePrimitive.hitTest]. *)
Definition hitTest (h : Host) (s : Prim) (x y : Z) : option PrimitiveHoveredItem :=
  match _messageAtPoint h s x y with
  | Some m =>
      Some {| cursorStyle := cursorOnHover (_options s);
              externalId := String.append "discord-message-" (id m);
              zOrder := "top" |}
  | None => None
  end.

(** ** [DiscordMessagePaneRenderer._truncateText]

    A JS string is a sequence of UTF-16 code units, here [list Z].  The test
    [ctx.measureText(truncated).width > maxWidth] depends on the canvas: it is
    the parameter [tooWide]. *)
Section Truncate.

Variable tooWide : list Z -> bool.

(** ['...'] *)
Definition ellipsis : list Z := [46; 46; 46].

(** [str.slice(0, -k)]: the first [length - k] code units, none when
    [k >= length]. *)
Definition slice_neg (t : list Z) (k : nat) : list Z := firstn (length t - k) t.

(** The [while] loop; every iteration removes one code unit, so [length text]
    iterations suffice. *)
Fixpoint truncate_loop (fuel : nat) (truncated : list Z) : list Z :=
  match fuel with
  | O => truncated
  | S f =>
      if tooWide truncated && (0 <? length truncated)%nat
      then truncate_loop f (slice_neg truncated 1)
      else truncated
  end.

Definition _truncateText (text : list Z) : list Z :=
  let truncated := truncate_loop (length text) text in
  if (length truncated <? length text)%nat
  then slice_neg truncated 3 ++ ellipsis
  else truncated.

End Truncate.

(** ** Specification-side predicates *)

(** The card box of [m] under strategy [st] contains [(x, y)]. *)
Definition in_card_box (h : Host) (st : Strategy) (o : DiscordMessageOptions)
    (m : DiscordMessage) (x y : Z) : Prop :=
  exists ax ay, strategy_resolveAnchor h st m = (Some ax, Some ay) /\
    ax <= x <= ax + cardWidth o /\
    ay <= y <= ay + (2 * cardPadding o + 3 * lineHeight o).

Definition visible (h : Host) (st : Strategy) (m : DiscordMessage) : bool :=
  match strategy_resolveAnchor h st m with
  | (Some _, Some _) => true
  | _ => false
  end.




(** Invariants of the primitive's state: the ids of the Map and of the
    array [messages()] are distinct, and the array lists the Map's values
    while the store's refresh listener is registered; the animation frames queued are exactly the
    scheduler's pending one, and the drag record and the drag start position
    are set and cleared together, and [_isDragging] does not outlive both
    the drag and its reset timer. *)
Definition raf_consistent (s : Prim) : Prop :=
  rafQueue (env s) = match _rafId (_animationScheduler s) with
                     | Some r => [r] | None => [] end.

Definition drag_paired (s : Prim) : Prop :=
  match _dragState s, _dragStartPos s with
  | None, None | Some _, Some _ => True
  | _, _ => False
  end.

(** [_isDragging] is only left set while a drag is in progress or while the
    [setTimeout] that clears it is pending. *)
Definition clicks_unblocked (s : Prim) : Prop :=
  _isDragging s = true -> _dragState s <> None \/ (0 < pendingTimeouts (env s))%nat.

Definition store_ok (st : MessagesState.t) : Prop :=
  NoDup (map id (MessagesState._messages st)) /\
  NoDup (map id (MessagesState.messages st)) /\
  (MessagesState._subscribed st = true -> MessagesState.messages st = MessagesState._messages st).

Definition Inv (s : Prim) : Prop :=
  store_ok (_state s) /\ raf_consistent s /\ drag_paired s /\ clicks_unblocked s.

(** Euclidean distance from the pointer-down position is at least 5 px. *)
Definition reachesThreshold (down ev : Z * Z) : bool :=
  let dx := ev.1 - down.1 in
  let dy := ev.2 - down.2 in
  25 <=? dx * dx + dy * dy.

(** ** Concrete inputs used by the witnesses and counterexamples *)

(** A host whose time and price scales are the identity on pixels. *)
Definition hostId : Host := {|
  timeToCoordinate := fun t => Some t;
  priceToCoordinate := fun p => Some p;
  coordinateToTime := fun c => Some c;
  coordinateToPrice := fun c => Some c;
  rectLeft := 0;
  rectTop := 0;
|}.

Definition msg1 : DiscordMessage := {|
  id := "m1"; time := 100; price := 100; username := "TradingView";
  message := "Don't even open TradingView today."; timestamp := "04 Apr";
  discordUrl := "https://discord.com/channels/example/123456";
  avatarUrl := None; usernameColor := None;
|}.

(** Attached, switched to draggable mode, one message. *)
Definition setupEvents : list Event :=
  [EAttached; ESetPositioningMode Mdraggable; EAddMessage msg1].

(** Pointer down on the card of [msg1] (anchored at (100, 100)) and a move
    of 10 px: a confirmed drag in progress. *)
Definition stDragging : Prim :=
  run hostId (setupEvents ++ [EChartMouseDown (110, 110); EDocMouseMove (120, 110)])
    (initial defaultOptions).

(** The drag of [stDragging] released at (120, 110). *)
Definition stDragEnded : Prim :=
  run hostId [EDocMouseUp (120, 110)] stDragging.


(** Attached, draggable, [msg1] stored; no gesture yet. *)
Definition stSetup : Prim := run hostId setupEvents (initial defaultOptions).

(** A tap on the right edge of the card of [msg1] (x = 100 + 280): pointer
    down at (380, 110), a 3 px move, release and click at (383, 110). *)
Definition stEdgeTap : Prim :=
  run hostId [EChartMouseDown (380, 110); EDocMouseMove (383, 110);
              EDocMouseUp (383, 110); EClick (Some (383, 110))] stSetup.

(** Pointer down twice on the card of [msg1] with no release in between (a
    second mouse button pressed during the gesture), then a 10 px move: two
    pairs of document listeners are registered and the drag is confirmed. *)
Definition stTwoDowns : Prim :=
  run hostId [EChartMouseDown (110, 110); EChartMouseDown (110, 110); EDocMouseMove (120, 110)]
    stSetup.

(** A host whose time scale is shifted by 10 px. *)
Definition hostShift : Host := {|
  timeToCoordinate := fun t => Some (t + 10);
  priceToCoordinate := fun p => Some p;
  coordinateToTime := fun c => Some (c - 10);
  coordinateToPrice := fun c => Some c;
  rectLeft := 0;
  rectTop := 0;
|}.

(** [stDragging] with its pixel offsets dropped. *)
Definition stDraggingNoOffset : Prim :=
  set_strategy (SDraggable DiscordDraggable.empty) stDragging.

(** A second message, at another id. *)
Definition msg2 : DiscordMessage := {|
  id := "m2"; time := 200; price := 50; username := "TradingView";
  message := "Second message"; timestamp := "05 Apr";
  discordUrl := "https://discord.com/channels/example/654321";
  avatarUrl := None; usernameColor := None;
|}.

(** The discord draggable strategy in the middle of a drag of [msg1],
    pointer 10 pixels to the right of where it went down. *)
Definition discordDrag1 : DiscordDraggable.t := {|
  DiscordDraggable._dragState := Some {| DiscordDraggable.messageId := "m1";
    DiscordDraggable.startX := 110; DiscordDraggable.startY := 110;
    DiscordDraggable.offsetX := 10; DiscordDraggable.offsetY := 0;
    DiscordDraggable.isDragging := true |};
  DiscordDraggable._pixelOffsets := <["m1" := (10, 0)]> ∅;
|}.

(** The argument of [applyOptions({ positioningMode: 'draggable' })]. *)
Definition poDraggable : PartialOptions := {|
  po_positioningMode := Some Mdraggable; po_cardBackgroundColor := None;
  po_cardBorderColor := None; po_cardBorderRadius := None;
  po_usernameColor := None; po_usernameFont := None;
  po_messageColor := None; po_messageFont := None;
  po_timestampColor := None; po_timestampFont := None;
  po_cardWidth := None; po_cardPadding := None; po_lineHeight := None;
  po_showDiscordLogo := None; po_showAvatar := None;
  po_hoverBackgroundColor := None; po_cursorOnHover := None |}.

(** A drag confirmed after the primitive was detached (its store destroyed)
    and attached again, with a call of [applyOptions] switching to the
    draggable mode. *)
Definition stReattachedDrag : Prim :=
  run hostId [EDetached; EAttached; EApplyOptions poDraggable;
              EChartMouseDown (110, 110); EDocMouseMove (120, 110)] stSetup.

(** ** Lemmas *)

Lemma messageAtPoint_loop_cons_in h st o m ms x y :
  in_card_box h st o m x y ->
  messageAtPoint_loop h st o (m :: ms) x y = Some m.
Proof.
  intros (ax & ay & E & ? & ?). simpl. rewrite E. unfold calculateCardHeight.
  replace (ax <=? x) with true by (symmetry; apply Z.leb_le; lia).
  replace (x <=? ax + cardWidth o) with true by (symmetry; apply Z.leb_le; lia).
  replace (ay <=? y) with true by (symmetry; apply Z.leb_le; lia).
  replace (y <=? ay + (cardPadding o * 2 + lineHeight o * 3)) with true
    by (symmetry; apply Z.leb_le; lia).
  reflexivity.
Qed.

Lemma messageAtPoint_loop_cons_out h st o m ms x y :
  ~ in_card_box h st o m x y ->
  messageAtPoint_loop h st o (m :: ms) x y = messageAtPoint_loop h st o ms x y.
Proof.
  intros Hb. simpl. unfold calculateCardHeight.
  destruct (strategy_resolveAnchor h st m) as [[ax|] [ay|]] eqn:E; try reflexivity.
  destruct (ax <=? x) eqn:E1; destruct (x <=? ax + cardWidth o) eqn:E2;
    destruct (ay <=? y) eqn:E3;
    destruct (y <=? ay + (cardPadding o * 2 + lineHeight o * 3)) eqn:E4;
    simpl; try reflexivity.
  exfalso; apply Hb. exists ax, ay.
  apply Z.leb_le in E1, E2, E3, E4. split; [exact E|lia].
Qed.

Lemma in_card_box_dec h st o m x y :
  {in_card_box h st o m x y} + {~ in_card_box h st o m x y}.
Proof.
  unfold in_card_box.
  destruct (strategy_resolveAnchor h st m) as [[ax|] [ay|]].
  - destruct (Z_le_dec ax x); [|right; intros (? & ? & [= <- <-] & ? & ?); lia].
    destruct (Z_le_dec x (ax + cardWidth o)); [|right; intros (? & ? & [= <- <-] & ? & ?); lia].
    destruct (Z_le_dec ay y); [|right; intros (? & ? & [= <- <-] & ? & ?); lia].
    destruct (Z_le_dec y (ay + (2 * cardPadding o + 3 * lineHeight o)));
      [|right; intros (? & ? & [= <- <-] & ? & ?); lia].
    left. exists ax, ay. split; [reflexivity|lia].
  - right. intros (? & ? & [=] & _).
  - right. intros (? & ? & [=] & _).
  - right. intros (? & ? & [=] & _).
Qed.

Lemma messageAtPoint_loop_resolves h st o ms x y m :
  messageAtPoint_loop h st o ms x y = Some m ->
  exists ax ay, strategy_resolveAnchor h st m = (Some ax, Some ay).
Proof.
  induction ms as [|m' ms IH]; [discriminate|].
  destruct (in_card_box_dec h st o m' x y) as [Hb|Hb].
  - rewrite messageAtPoint_loop_cons_in by exact Hb. intros [= <-].
    destruct Hb as (ax & ay & E & _). eauto.
  - rewrite messageAtPoint_loop_cons_out by exact Hb. exact IH.
Qed.

(** Store order: [addMessage] of a new id appends, of a known id replaces in
    place; [updateMessage] never changes the order of the ids. *)
Lemma addMessage_new_appends m l :
  map_has (id m) l = false -> addMessage m l = l ++ [m].
Proof.
  unfold addMessage, map_has. induction l as [|m' l IH]; simpl; [done|].
  intros Hf. apply orb_false_iff in Hf as [H1 H2].
  rewrite H1. f_equal. auto.
Qed.

Lemma map_set_ids m l :
  map_has (id m) l = true -> map id (map_set m l) = map id l.
Proof.
  unfold map_has. induction l as [|m' l IH]; simpl; [discriminate|].
  destruct (String.eqb (id m') (id m)) eqn:E; simpl.
  - apply String.eqb_eq in E. rewrite E. done.
  - intros Hl. f_equal. apply IH. exact Hl.
Qed.

Lemma updateMessage_ids m l : map id (updateMessage m l) = map id l.
Proof.
  unfold updateMessage. destruct (map_has (id m) l) eqn:E; [|done].
  apply map_set_ids; exact E.
Qed.

(** *** The store *)

Lemma filter_bool_cons {A} (f : A -> bool) x l :
  filter (fun y => f y) (x :: l) =
  if f x then x :: filter (fun y => f y) l else filter (fun y => f y) l.
Proof.
  rewrite filter_cons. destruct (decide (f x)) as [Hf|Hf]; destruct (f x); simpl in Hf;
    first [reflexivity | contradiction | exfalso; auto].
Qed.

Lemma getMessage_map_set_eq m l : getMessage (id m) (map_set m l) = Some m.
Proof.
  unfold getMessage. induction l as [|m' l IH]; simpl.
  - rewrite String.eqb_refl. reflexivity.
  - destruct (String.eqb (id m') (id m)) eqn:E; simpl.
    + rewrite String.eqb_refl. reflexivity.
    + rewrite E. exact IH.
Qed.

Lemma getMessage_map_set_ne m l k :
  k <> id m -> getMessage k (map_set m l) = getMessage k l.
Proof.
  intros Hk. unfold getMessage.
  assert (Hm : String.eqb (id m) k = false) by (apply String.eqb_neq; congruence).
  induction l as [|m' l IH]; simpl.
  - rewrite Hm. reflexivity.
  - destruct (String.eqb (id m') (id m)) eqn:E; simpl.
    + apply String.eqb_eq in E. rewrite Hm, E, Hm. reflexivity.
    + rewrite IH. reflexivity.
Qed.

Lemma map_has_false_getMessage k l : map_has k l = false -> getMessage k l = None.
Proof.
  unfold map_has, getMessage. induction l as [|m l IH]; simpl; [reflexivity|].
  intros Hf. apply orb_false_iff in Hf as [H1 H2]. rewrite H1. auto.
Qed.

Lemma map_has_false_notin k l : map_has k l = false -> k ∉ map id l.
Proof.
  unfold map_has. induction l as [|m l IH]; simpl; [intros _; apply not_elem_of_nil|].
  intros Hf. apply orb_false_iff in Hf as [H1 H2].
  rewrite elem_of_cons. intros [E|E].
  - subst k. rewrite String.eqb_refl in H1. discriminate.
  - exact (IH H2 E).
Qed.

Lemma getMessage_filter_eq k l :
  getMessage k (filter (fun m => negb (String.eqb (id m) k)) l) = None.
Proof.
  unfold getMessage. induction l as [|m l IH]; [reflexivity|].
  rewrite filter_bool_cons. destruct (String.eqb (id m) k) eqn:E; simpl; [exact IH|].
  rewrite E. exact IH.
Qed.

Lemma getMessage_filter_ne k k' l :
  k' <> k ->
  getMessage k' (filter (fun m => negb (String.eqb (id m) k)) l) = getMessage k' l.
Proof.
  intros Hk. unfold getMessage. induction l as [|m l IH]; [reflexivity|].
  rewrite filter_bool_cons. destruct (String.eqb (id m) k) eqn:E; simpl.
  - apply String.eqb_eq in E. subst k.
    replace (String.eqb (id m) k') with false by (symmetry; apply String.eqb_neq; congruence).
    exact IH.
  - destruct (String.eqb (id m) k'); [reflexivity|exact IH].
Qed.

Lemma filter_ids_incl k k' l :
  k' ∈ map id (filter (fun m => negb (String.eqb (id m) k)) l) -> k' ∈ map id l.
Proof.
  induction l as [|m l IH]; [rewrite filter_nil; auto|].
  rewrite filter_bool_cons. simpl. rewrite elem_of_cons.
  destruct (negb (String.eqb (id m) k)); simpl; [rewrite elem_of_cons|]; intuition.
Qed.

Lemma NoDup_ids_filter k l :
  NoDup (map id l) -> NoDup (map id (filter (fun m => negb (String.eqb (id m) k)) l)).
Proof.
  induction l as [|m l IH]; [rewrite filter_nil; auto|].
  simpl. intros Hnd. apply NoDup_cons in Hnd as [Hn Hnd].
  rewrite filter_bool_cons. destruct (negb (String.eqb (id m) k)); simpl; [|auto].
  apply NoDup_cons. split; [|auto]. intros Hin. apply Hn. eapply filter_ids_incl; exact Hin.
Qed.

Lemma NoDup_ids_addMessage m l : NoDup (map id l) -> NoDup (map id (addMessage m l)).
Proof.
  intros Hnd. destruct (map_has (id m) l) eqn:E.
  - unfold addMessage. rewrite map_set_ids by exact E. exact Hnd.
  - rewrite addMessage_new_appends by exact E. rewrite map_app. simpl.
    apply NoDup_app. split; [exact Hnd|split].
    + intros x Hx Hx'. apply list_elem_of_singleton in Hx'. subst x.
      exact (map_has_false_notin _ _ E Hx).
    + apply NoDup_singleton.
Qed.

Lemma NoDup_ids_removeMessage k l : NoDup (map id l) -> NoDup (map id (removeMessage k l)).
Proof.
  intros Hnd. unfold removeMessage. destruct (map_has k l); [|exact Hnd].
  apply NoDup_ids_filter. exact Hnd.
Qed.

Lemma NoDup_ids_updateMessage m l : NoDup (map id l) -> NoDup (map id (updateMessage m l)).
Proof. intros Hnd. rewrite updateMessage_ids. exact Hnd. Qed.

Lemma mutate_held_ids m' l :
  map id (map (fun x => if String.eqb (id x) (id m') then m' else x) l) = map id l.
Proof.
  induction l as [|x l IH]; simpl; [reflexivity|]. rewrite IH.
  destruct (String.eqb (id x) (id m')) eqn:E; [apply String.eqb_eq in E; rewrite E|]; reflexivity.
Qed.

Lemma store_messages_fire l st :
  MessagesState._messages (MessagesState.fire_messagesChanged (MessagesState.set_messages l st)) = l.
Proof. unfold MessagesState.fire_messagesChanged. destruct (MessagesState._subscribed _); reflexivity. Qed.

Lemma store_messages_updateMessage m st :
  MessagesState._messages (MessagesState.updateMessage m st) =
  updateMessage m (MessagesState._messages st).
Proof.
  unfold MessagesState.updateMessage, updateMessage.
  destruct (map_has _ _); [apply store_messages_fire|reflexivity].
Qed.

Lemma store_ok_fire l st :
  NoDup (map id l) -> store_ok st ->
  store_ok (MessagesState.fire_messagesChanged (MessagesState.set_messages l st)).
Proof.
  destruct st as [ms arr sub]. unfold store_ok, MessagesState.messages.
  unfold MessagesState.fire_messagesChanged; simpl. intros Hl (H1 & H2 & H3).
  destruct sub; simpl; [repeat split; auto|split; [exact Hl|split; [exact H2|discriminate]]].
Qed.

Lemma store_ok_addMessage m st : store_ok st -> store_ok (MessagesState.addMessage m st).
Proof. intros H. apply store_ok_fire; [apply NoDup_ids_addMessage, H|exact H]. Qed.

Lemma store_ok_removeMessage k st : store_ok st -> store_ok (MessagesState.removeMessage k st).
Proof.
  intros H. unfold MessagesState.removeMessage. destruct (map_has _ _); [|exact H].
  apply store_ok_fire; [apply NoDup_ids_filter, H|exact H].
Qed.

Lemma store_ok_updateMessage m st : store_ok st -> store_ok (MessagesState.updateMessage m st).
Proof.
  intros H. unfold MessagesState.updateMessage. destruct (map_has _ _) eqn:E; [|exact H].
  apply store_ok_fire; [|exact H].
  pose proof (NoDup_ids_updateMessage m _ (proj1 H)) as Hn.
  unfold updateMessage in Hn. rewrite E in Hn. exact Hn.
Qed.

Lemma store_ok_destroy st : store_ok st -> store_ok (MessagesState.destroy st).
Proof.
  destruct st as [ms arr sub]. unfold store_ok, MessagesState.messages; simpl.
  intros (H1 & H2 & H3). split; [exact H1|split; [exact H2|discriminate]].
Qed.

Lemma store_ok_release m' st :
  store_ok st ->
  store_ok (MessagesState.updateMessage m'
              (if MessagesState._subscribed st then st else MessagesState.mutate_held m' st)).
Proof.
  intros H. apply store_ok_updateMessage. destruct st as [ms arr [|]]; [exact H|].
  revert H. unfold store_ok, MessagesState.messages, MessagesState.mutate_held; simpl.
  rewrite mutate_held_ids. intros (H1 & H2 & H3). split; [exact H1|split; [exact H2|discriminate]].
Qed.

(** *** Invariants of the primitive *)

Ltac destr_prim s :=
  destruct s as [st o strat hov ds mdh dmh duh isd dsp [rid cb]
                 [att dml dul mdl rq rn pt pmm ou]].

Ltac inv_intro :=
  unfold Inv, raf_consistent, drag_paired, clicks_unblocked; simpl;
  intros (Hnd & Hraf & Hdp & Hcu).

Ltac inv_finish :=
  repeat (match goal with
          | |- store_ok _ => fail 1
          | |- _ => split
          end); simpl in *; try assumption; try exact I;
  try (intros ?; first [discriminate | right; lia | left; discriminate | auto]).

Lemma filter_raf_self r : filter (fun r' => negb (Nat.eqb r r')) [r] = [].
Proof. rewrite filter_bool_cons, Nat.eqb_refl. reflexivity. Qed.

Lemma Inv_iter (f : Prim -> Prim) n s :
  (forall s, Inv s -> Inv (f s)) -> Inv s -> Inv (Nat.iter n f s).
Proof. intros Hf Hs. induction n as [|n IH]; simpl; auto. Qed.

Lemma Inv_onMouseDown h ev s : Inv s -> Inv (_onMouseDown h ev s).
Proof.
  unfold _onMouseDown. cbv zeta. destruct (_messageAtPoint h s _ _) as [m|]; [|auto].
  destr_prim s. inv_intro. inv_finish.
Qed.

Lemma Inv_onDocumentMouseMove h ev s : Inv s -> Inv (_onDocumentMouseMove h ev s).
Proof.
  destr_prim s. unfold _onDocumentMouseMove. simpl.
  destruct ds as [[? dm]|], dsp as [[sx sy]|]; try (intros H; exact H).
  destruct (negb isd && _); [intros H; exact H|].
  unfold schedule. inv_intro. inv_finish.
  destruct rid as [r|]; subst rq; [rewrite filter_raf_self|]; reflexivity.
Qed.

Lemma Inv_onDocumentMouseUp h ev s : Inv s -> Inv (_onDocumentMouseUp h ev s).
Proof.
  destr_prim s. unfold _onDocumentMouseUp. simpl.
  destruct ds as [[mid dm]|]; [|intros H; exact H].
  destruct isd; [destruct (strategy_handleMouseUp _ _ _ _) as [st' dm']|];
    unfold _removeDocumentDragListeners; simpl; destruct dmh, duh; simpl;
    inv_intro; inv_finish; apply store_ok_release; assumption.
Qed.

Lemma Inv_clickHandler h p s : Inv s -> Inv (_clickHandler h p s).
Proof.
  unfold _clickHandler. destruct p as [[px py]|]; [|auto].
  destruct (_isDragging s); [auto|]. destruct (_messageAtPoint h s px py); [|auto].
  destr_prim s. inv_intro. inv_finish.
Qed.

Lemma Inv_onCrosshairMove h p s : Inv s -> Inv (_onCrosshairMove h p s).
Proof.
  destr_prim s. unfold _onCrosshairMove. simpl.
  destruct ds as [[? dm]|]; [destruct isd|]; destruct p as [[px py]|]; simpl;
    inv_intro; inv_finish.
Qed.

Lemma Inv_fireTimeout s : Inv s -> Inv (fireTimeout s).
Proof.
  destr_prim s. unfold fireTimeout. simpl. destruct pt; [auto|]. inv_intro. inv_finish.
Qed.

Lemma Inv_fireAnimationFrame s : Inv s -> Inv (fireAnimationFrame s).
Proof.
  destr_prim s. unfold fireAnimationFrame. simpl. destruct rid as [r|]; [|auto].
  inv_intro. inv_finish. subst rq. apply filter_raf_self.
Qed.

Lemma Inv_set_state f s :
  (forall st, store_ok st -> store_ok (f st)) -> Inv s -> Inv (set_state (f (_state s)) s).
Proof. intros Hf. destr_prim s. inv_intro. inv_finish. auto. Qed.

Lemma Inv_set_options v s : Inv s -> Inv (set_options v s).
Proof. destr_prim s. inv_intro. inv_finish. Qed.

Lemma Inv_set_strategy v s : Inv s -> Inv (set_strategy v s).
Proof. destr_prim s. inv_intro. inv_finish. Qed.

Lemma Inv_attachDragListeners s : Inv s -> Inv (_attachDragListeners s).
Proof. destr_prim s. inv_intro. inv_finish. Qed.

Lemma Inv_removeDocumentDragListeners s : Inv s -> Inv (_removeDocumentDragListeners s).
Proof.
  destr_prim s. unfold _removeDocumentDragListeners. simpl. destruct dmh, duh; simpl;
    inv_intro; inv_finish.
Qed.

Lemma Inv_detachDragListeners s : Inv s -> Inv (_detachDragListeners s).
Proof.
  intros Hs. apply Inv_removeDocumentDragListeners in Hs. unfold _detachDragListeners.
  destruct (_removeDocumentDragListeners s) as [st o strat hov ds mdh dmh duh isd dsp [rid cb]
                 [att dml dul mdl rq rn pt pmm ou]].
  simpl. destruct mdh; simpl; revert Hs; inv_intro; inv_finish.
Qed.

Lemma Inv_updatePositioningMode h md s : Inv s -> Inv (updatePositioningMode h md s).
Proof.
  intros Hs. unfold updatePositioningMode. cbv zeta.
  assert (H1 : Inv (match _dragState s with
                    | Some _ => _onDocumentMouseUp h syntheticMouseUp s | None => s end)).
  { destruct (_dragState s); [apply Inv_onDocumentMouseUp|]; exact Hs. }
  revert H1. generalize (match _dragState s with
                         | Some _ => _onDocumentMouseUp h syntheticMouseUp s | None => s end).
  intros s1 H1.
  assert (H2 : Inv (if PositioningMode_eqb (positioningMode (_options s1)) Mdraggable
                    then _detachDragListeners s1 else s1)).
  { destruct (PositioningMode_eqb _ _); [apply Inv_detachDragListeners|]; exact H1. }
  revert H2. generalize (if PositioningMode_eqb (positioningMode (_options s1)) Mdraggable
                         then _detachDragListeners s1 else s1).
  intros s2 H2.
  destruct (_ && _); [apply Inv_attachDragListeners|];
    apply Inv_set_strategy, Inv_set_strategy; exact H2.
Qed.

Lemma Inv_setPositioningMode h md s : Inv s -> Inv (setPositioningMode h md s).
Proof. intros Hs. apply Inv_updatePositioningMode, Inv_set_options, Hs. Qed.

Lemma Inv_applyOptions h po s : Inv s -> Inv (applyOptions h po s).
Proof.
  intros Hs. unfold applyOptions. cbv zeta. apply (Inv_set_options (mergeOptions po (_options s))) in Hs.
  destruct (po_positioningMode po); [apply Inv_updatePositioningMode|]; exact Hs.
Qed.

Lemma Inv_attached s : Inv s -> Inv (attached s).
Proof.
  intros Hs. unfold attached. cbv zeta.
  assert (H1 : Inv (set_env (env_set_attached true (env s)) s))
    by (destr_prim s; revert Hs; inv_intro; inv_finish).
  destruct (PositioningMode_eqb _ _); [apply Inv_attachDragListeners|]; exact H1.
Qed.

Lemma Inv_detached s : Inv s -> Inv (detached s).
Proof.
  intros Hs. unfold detached. cbv zeta.
  apply Inv_removeDocumentDragListeners, Inv_detachDragListeners in Hs.
  revert Hs. generalize (_detachDragListeners (_removeDocumentDragListeners s)). intros s1.
  destr_prim s1. unfold cancel. simpl. inv_intro. inv_finish.
  - apply store_ok_destroy; exact Hnd.
  - destruct rid as [r|]; subst rq; [apply filter_raf_self|reflexivity].
Qed.

Lemma Inv_step h e s : Inv s -> Inv (step h e s).
Proof.
  intros Hs. destruct e; simpl.
  - apply Inv_iter; [intros; apply Inv_onMouseDown; assumption|exact Hs].
  - apply Inv_iter; [intros; apply Inv_onDocumentMouseMove; assumption|exact Hs].
  - apply Inv_iter; [intros; apply Inv_onDocumentMouseUp; assumption|exact Hs].
  - destruct (chartAttached (env s)); [apply Inv_clickHandler|]; exact Hs.
  - destruct (chartAttached (env s)); [apply Inv_onCrosshairMove|]; exact Hs.
  - apply Inv_fireTimeout; exact Hs.
  - apply Inv_fireAnimationFrame; exact Hs.
  - apply Inv_setPositioningMode; exact Hs.
  - apply Inv_updatePositioningMode; exact Hs.
  - apply Inv_applyOptions; exact Hs.
  - apply Inv_set_state; [apply store_ok_addMessage|exact Hs].
  - apply Inv_set_state; [apply store_ok_removeMessage|exact Hs].
  - apply Inv_set_state; [apply store_ok_updateMessage|exact Hs].
  - apply Inv_attached; exact Hs.
  - apply Inv_detached; exact Hs.
Qed.

Lemma Inv_run h es s : Inv s -> Inv (run h es s).
Proof.
  revert s. induction es as [|e es IH]; intros s Hs; simpl; [exact Hs|].
  apply IH, Inv_step, Hs.
Qed.

Lemma Inv_initial o : Inv (initial o).
Proof.
  unfold Inv, store_ok, raf_consistent, drag_paired, clicks_unblocked, initial; simpl.
  repeat split; [apply NoDup_nil_2|apply NoDup_nil_2|discriminate].
Qed.

Lemma Inv_reachable h s : reachable h s -> Inv s.
Proof. intros (o & es & ->). apply Inv_run, Inv_initial. Qed.

(** *** Release of a confirmed drag *)






(** ** Claims *)

(** C8: the draggable resolver (the same [resolveAnchor] in the discord and
    the social strategy) returns a point with both coordinates non-null
    exactly when both base coordinates (time to pixel, price to pixel) are
    non-null; when one is null it returns the base conversion unchanged
    (null propagated, no default substituted); when both are non-null it
    returns the base position plus the message's offset entry, or the base
    position when there is no entry. *)
Theorem C8_draggable_resolveAnchor (h : Host) (offsets : PixelOffsets) (m : DiscordMessage) :
  let r := draggable_resolveAnchor h offsets m in
  let baseX := timeToCoordinate h (time m) in
  let baseY := priceToCoordinate h (price m) in
  ((is_Some r.1 /\ is_Some r.2) <-> (is_Some baseX /\ is_Some baseY)) /\
  ((baseX = None \/ baseY = None) -> r = (baseX, baseY)) /\
  (forall bx by_, baseX = Some bx -> baseY = Some by_ ->
     r = match offsets !! id m with
         | Some (ox, oy) => (Some (bx + ox), Some (by_ + oy))
         | None => (Some bx, Some by_)
         end).
Proof.
  unfold draggable_resolveAnchor. cbv zeta.
  destruct (timeToCoordinate h (time m)) as [bx|];
    destruct (priceToCoordinate h (price m)) as [by_|];
    destruct (offsets !! id m) as [[ox oy]|]; simpl;
    (split; [split; intros [H1 H2]; split; eauto; try (destruct H1; discriminate);
             try (destruct H2; discriminate)|]);
    (split; [intros [E|E]; discriminate || reflexivity|]);
    intros ?? E1 E2; try discriminate; injection E1; injection E2; intros; subst; reflexivity.
Qed.

(** C4: the hit test returns the first message of the store list
    ([messages()], in key-insertion order) whose resolved anchor has both
    coordinates non-null and whose box [anchorX, anchorX + cardWidth] x
    [anchorY, anchorY + 2*cardPadding + 3*lineHeight] contains the point;
    it returns null exactly when no message's box contains the point, a
    message with a null resolved coordinate never being hit. *)
Theorem C4_messageAtPoint_first_hit (h : Host) (s : Prim) (x y : Z) :
  (forall m, _messageAtPoint h s x y = Some m <->
     exists pre post, MessagesState.messages (_state s) = pre ++ m :: post /\
       in_card_box h (_strategy s) (_options s) m x y /\
       Forall (fun m' => ~ in_card_box h (_strategy s) (_options s) m' x y) pre) /\
  (_messageAtPoint h s x y = None <->
     Forall (fun m' => ~ in_card_box h (_strategy s) (_options s) m' x y)
       (MessagesState.messages (_state s))).
Proof.
  unfold _messageAtPoint.
  generalize (MessagesState.messages (_state s)) as l; generalize (_strategy s) as st; generalize (_options s) as o.
  intros o st l. induction l as [|m0 l [IH1 IH2]].
  - split.
    + intros m; split; [discriminate|]. intros (pre & post & E & _). destruct pre; discriminate.
    + split; [constructor|reflexivity].
  - destruct (in_card_box_dec h st o m0 x y) as [Hb|Hb].
    + rewrite messageAtPoint_loop_cons_in by exact Hb. split.
      * intros m; split.
        -- intros [= <-]. exists [], l. repeat split; [exact Hb|constructor].
        -- intros (pre & post & E & Hm & Hpre). destruct pre as [|p pre].
           ++ injection E as -> _. reflexivity.
           ++ injection E as -> _. inversion Hpre; contradiction.
      * split; [discriminate|]. intros HF. inversion HF; contradiction.
    + rewrite messageAtPoint_loop_cons_out by exact Hb. split.
      * intros m. rewrite IH1. split.
        -- intros (pre & post & E & Hm & Hpre). exists (m0 :: pre), post.
           rewrite E. repeat split; [exact Hm|constructor; assumption].
        -- intros (pre & post & E & Hm & Hpre). destruct pre as [|p pre].
           ++ injection E as -> _. contradiction.
           ++ injection E as -> E. exists pre, post. inversion Hpre; auto.
      * rewrite IH2. split; [intros; constructor; assumption|].
        intros HF; inversion HF; assumption.
Qed.

(** C5: while a drag record exists and is confirmed, a crosshair move
    (with any point, or none) sets the hover id to the dragged message's id. *)
Theorem C5_hover_pinned_during_drag (h : Host) (s : Prim) (mid : string)
    (dm : DiscordMessage) (point : option (Z * Z)) :
  _dragState s = Some (mid, dm) -> _isDragging s = true ->
  _hoveredMessageId (_onCrosshairMove h point s) = Some (id dm).
Proof.
  intros Hd Hi. unfold _onCrosshairMove. rewrite Hd, Hi.
  destruct s; reflexivity.
Qed.

Lemma C5_witness :
  _dragState stDragging = Some ("m1"%string, msg1) /\ _isDragging stDragging = true /\
  _hoveredMessageId (_onCrosshairMove hostId (Some (900, 900)) stDragging) = Some "m1"%string.
Proof.
  assert (Hd : _dragState stDragging = Some ("m1"%string, msg1)) by (vm_compute; reflexivity).
  assert (Hi : _isDragging stDragging = true) by (vm_compute; reflexivity).
  split; [exact Hd|split; [exact Hi|]].
  exact (C5_hover_pinned_during_drag hostId stDragging "m1" msg1 (Some (900, 900)) Hd Hi).
Defined.









(** *** Step lemmas for the drag handlers *)

Lemma messageAtPoint_loop_ext h st1 st2 o ms x y :
  (forall m, strategy_resolveAnchor h st1 m = strategy_resolveAnchor h st2 m) ->
  messageAtPoint_loop h st1 o ms x y = messageAtPoint_loop h st2 o ms x y.
Proof.
  intros E. induction ms as [|m ms IH]; simpl; [reflexivity|].
  rewrite E, IH. reflexivity.
Qed.

Lemma onMouseDown_hit h ev0 s m :
  _messageAtPoint h s (ev0.1 - rectLeft h) (ev0.2 - rectTop h) = Some m ->
  let s1 := _onMouseDown h ev0 s in
  _dragState s1 = Some (id m, m) /\ _isDragging s1 = false /\ _dragStartPos s1 = Some ev0 /\
  _strategy s1 = strategy_handleMouseDown h (_strategy s) m (ev0.1 - rectLeft h, ev0.2 - rectTop h) /\
  _state s1 = _state s /\ _options s1 = _options s /\ openedUrls (env s1) = openedUrls (env s).
Proof.
  intros Hm. unfold _onMouseDown. cbv zeta. rewrite Hm.
  destruct s as [a b c d e f g h' i j k [? ? ? ? ? ? ? ? ?]]; simpl.
  repeat split; reflexivity.
Qed.

Lemma onDocumentMouseMove_below h ev s mid dm p0 :
  _dragState s = Some (mid, dm) -> _dragStartPos s = Some p0 -> _isDragging s = false ->
  reachesThreshold p0 ev = false ->
  _onDocumentMouseMove h ev s = s.
Proof.
  intros Hd Hp Hi Hr. unfold _onDocumentMouseMove. rewrite Hd, Hp, Hi.
  destruct p0 as [sx sy]. unfold reachesThreshold in Hr. simpl in Hr |- *.
  apply Z.leb_gt in Hr.
  replace (_ <? _) with true by (symmetry; apply Z.ltb_lt; unfold dragThreshold; lia).
  reflexivity.
Qed.

Lemma onDocumentMouseMove_forward h ev s mid dm p0 :
  _dragState s = Some (mid, dm) -> _dragStartPos s = Some p0 ->
  (_isDragging s || reachesThreshold p0 ev) = true ->
  let s' := _onDocumentMouseMove h ev s in
  _isDragging s' = true /\ _dragState s' = _dragState s /\ _dragStartPos s' = _dragStartPos s /\
  _strategy s' = strategy_handleMouseMove (_strategy s) dm (ev.1 - rectLeft h, ev.2 - rectTop h) /\
  _state s' = _state s /\ _options s' = _options s /\ openedUrls (env s') = openedUrls (env s).
Proof.
  intros Hd Hp Hr.
  destruct s as [a b c d e f g h' i j k [? ? ? ? ? ? ? ? ?]]; simpl in *; subst e j.
  destruct p0 as [sx sy].
  assert (Hg : (negb i && ((ev.1 - sx) * (ev.1 - sx) + (ev.2 - sy) * (ev.2 - sy)
                          <? dragThreshold * dragThreshold)) = false).
  { destruct i; [reflexivity|]. simpl in Hr |- *.
    unfold reachesThreshold in Hr. simpl in Hr. apply Z.leb_le in Hr.
    apply Z.ltb_ge. unfold dragThreshold. lia. }
  unfold _onDocumentMouseMove; simpl. rewrite Hg. simpl.
  repeat split; reflexivity.
Qed.

Lemma onDocumentMouseUp_keeps h ev s :
  let s' := _onDocumentMouseUp h ev s in
  _isDragging s' = _isDragging s /\ _options s' = _options s /\
  openedUrls (env s') = openedUrls (env s).
Proof.
  destruct s as [a b c d e f g h' i j k [? ? ? ? ? ? ? ? ?]].
  unfold _onDocumentMouseUp; simpl.
  destruct e as [[mid dm]|]; [|auto].
  destruct i.
  - destruct (strategy_handleMouseUp h c dm _) as [st' dm'].
    unfold _removeDocumentDragListeners; simpl.
    destruct g, h'; simpl; repeat split; reflexivity.
  - unfold _removeDocumentDragListeners; simpl.
    destruct g, h'; simpl; repeat split; reflexivity.
Qed.

Lemma onDocumentMouseUp_not_dragging h ev s :
  _isDragging s = false ->
  let s' := _onDocumentMouseUp h ev s in
  _strategy s' = _strategy s /\ _state s' = _state s.
Proof.
  intros Ei.
  destruct s as [a b c d e f g h' i j k [? ? ? ? ? ? ? ? ?]]; simpl in Ei; subst i.
  unfold _onDocumentMouseUp; simpl.
  destruct e as [[mid dm]|]; [|auto].
  unfold _removeDocumentDragListeners; simpl.
  destruct g, h'; simpl; split; reflexivity.
Qed.

Lemma clickHandler_dragging h c s :
  _isDragging s = true -> _clickHandler h (Some c) s = s.
Proof. intros Ei. unfold _clickHandler. destruct c. rewrite Ei. reflexivity. Qed.

Lemma clickHandler_not_dragging h c s :
  _isDragging s = false ->
  openedUrls (env (_clickHandler h (Some c) s)) =
    openedUrls (env s) ++ match _messageAtPoint h s c.1 c.2 with
                          | Some m => [discordUrl m] | None => [] end.
Proof.
  intros Ei. unfold _clickHandler. destruct c as [px py]. rewrite Ei. simpl.
  case_eq (_messageAtPoint h s px py); [intros m _|intros _].
  - destruct s as [? ? ? ? ? ? ? ? ? ? ? []]; reflexivity.
  - rewrite app_nil_r. reflexivity.
Qed.

Lemma handleMouseDown_offsets h ds m ev :
  DiscordDraggable._pixelOffsets (DiscordDraggable.handleMouseDown h ds m ev) =
  DiscordDraggable._pixelOffsets ds.
Proof.
  unfold DiscordDraggable.handleMouseDown.
  destruct (DiscordDraggable.resolveAnchor h ds m) as [[?|] [?|]]; reflexivity.
Qed.

Lemma moves_fold_below h moves : forall s mid dm p0,
  _dragState s = Some (mid, dm) -> _dragStartPos s = Some p0 -> _isDragging s = false ->
  existsb (reachesThreshold p0) moves = false ->
  fold_left (fun s ev => _onDocumentMouseMove h ev s) moves s = s.
Proof.
  induction moves as [|ev moves IH]; intros s mid dm p0 Hd Hp Hi He; [reflexivity|].
  simpl in He. apply orb_false_iff in He as [He1 He2]. simpl.
  rewrite (onDocumentMouseMove_below h ev s mid dm p0) by assumption.
  eapply IH; eassumption.
Qed.

Lemma moves_fold_keeps h moves : forall s mid dm p0,
  _dragState s = Some (mid, dm) -> _dragStartPos s = Some p0 ->
  let s2 := fold_left (fun s ev => _onDocumentMouseMove h ev s) moves s in
  _dragState s2 = _dragState s /\ _dragStartPos s2 = _dragStartPos s /\
  _isDragging s2 = _isDragging s || existsb (reachesThreshold p0) moves /\
  _state s2 = _state s /\ _options s2 = _options s /\ openedUrls (env s2) = openedUrls (env s).
Proof.
  induction moves as [|ev moves IH]; intros s mid dm p0 Hd Hp; simpl.
  - rewrite orb_false_r. repeat split; reflexivity.
  - destruct (_isDragging s || reachesThreshold p0 ev) eqn:E.
    + destruct (onDocumentMouseMove_forward h ev s mid dm p0 Hd Hp E)
        as (Hi' & Hd' & Hp' & _ & Hs' & Ho' & Hu').
      destruct (IH (_onDocumentMouseMove h ev s) mid dm p0) as (A & B & C & D & F & G);
        [congruence|congruence|].
      rewrite A, B, C, D, F, G, Hi', Hd', Hp', Hs', Ho', Hu'.
      apply orb_true_iff in E as [E|E]; rewrite E; simpl;
        [|rewrite orb_true_r]; repeat split; reflexivity.
    + apply orb_false_iff in E as [E1 E2].
      rewrite (onDocumentMouseMove_below h ev s mid dm p0) by assumption.
      rewrite E1, E2. simpl.
      destruct (IH s mid dm p0 Hd Hp) as (A & B & C & D & F & G).
      rewrite E1 in C. repeat split; assumption.
Qed.

Lemma moves_fold_offsets h moves : forall s mid dm p0 ds d q,
  _dragState s = Some (mid, dm) -> _dragStartPos s = Some p0 ->
  _strategy s = SDraggable ds -> DiscordDraggable._dragState ds = Some d ->
  DiscordDraggable.messageId d = id dm ->
  DiscordDraggable.startX d = p0.1 - rectLeft h ->
  DiscordDraggable.startY d = p0.2 - rectTop h ->
  (_isDragging s || existsb (reachesThreshold p0) moves) = true ->
  last moves = Some q ->
  strategy_offsets (_strategy (fold_left (fun s ev => _onDocumentMouseMove h ev s) moves s))
    !! id dm = Some (q.1 - p0.1, q.2 - p0.2).
Proof.
  induction moves as [|ev moves IH]; intros s mid dm p0 ds d q Hd Hp Hst Hds Hid Hx Hy Hr Hl;
    [discriminate|].
  cbn [fold_left].
  destruct (_isDragging s || reachesThreshold p0 ev) eqn:E.
  - destruct (onDocumentMouseMove_forward h ev s mid dm p0 Hd Hp E)
      as (Hi' & Hd' & Hp' & Hst' & _ & _ & _).
    rewrite Hst in Hst'. unfold strategy_handleMouseMove, DiscordDraggable.handleMouseMove in Hst'.
    rewrite Hds, Hid, String.eqb_refl in Hst'. cbv zeta in Hst'.
    destruct moves as [|ev' moves].
    + simpl in Hl. injection Hl as <-. cbn [fold_left]. rewrite Hst'. simpl.
      rewrite lookup_insert_eq. f_equal. rewrite Hx, Hy. f_equal; lia.
    + eapply (IH (_onDocumentMouseMove h ev s) mid dm p0 _ _ q).
      * congruence.
      * congruence.
      * exact Hst'.
      * reflexivity.
      * reflexivity.
      * exact Hx.
      * exact Hy.
      * rewrite Hi'. reflexivity.
      * exact Hl.
  - apply orb_false_iff in E as [E1 E2].
    rewrite (onDocumentMouseMove_below h ev s mid dm p0) by assumption.
    rewrite E1 in Hr. simpl in Hr. rewrite E2 in Hr. simpl in Hr.
    destruct moves as [|ev' moves]; [discriminate|].
    eapply IH; try eassumption. rewrite E1. exact Hr.
Qed.

(** *** C3 *)

(** C3 (as amended). For a pointer-down that hits message [m] in draggable
    mode, followed by global moves, a release and the click at [click]: the
    drag is confirmed exactly when some move is at distance >= 5 px
    (dx^2 + dy^2 >= 25) from the pointer-down. If none is, the pixel offsets
    and the store are unchanged, the click is not suppressed and opens the URL
    of whichever message the hit test finds at the click point (none if the
    click point is off every card). If one is, the moves have written the
    offset (last move - pointer-down) for [m], and the click opens nothing. *)
Theorem C3_drag_threshold h s ds ev0 moves evUp click m :
  _strategy s = SDraggable ds ->
  _messageAtPoint h s (ev0.1 - rectLeft h) (ev0.2 - rectTop h) = Some m ->
  let s1 := _onMouseDown h ev0 s in
  let s2 := fold_left (fun s ev => _onDocumentMouseMove h ev s) moves s1 in
  let s3 := _onDocumentMouseUp h evUp s2 in
  let s4 := _clickHandler h (Some click) s3 in
  _isDragging s2 = existsb (reachesThreshold ev0) moves /\
  (existsb (reachesThreshold ev0) moves = false ->
     strategy_offsets (_strategy s3) = DiscordDraggable._pixelOffsets ds /\
     _state s3 = _state s /\
     openedUrls (env s4) =
       openedUrls (env s) ++ match _messageAtPoint h s click.1 click.2 with
                             | Some m' => [discordUrl m'] | None => [] end) /\
  (existsb (reachesThreshold ev0) moves = true ->
     (exists p, last moves = Some p /\
        strategy_offsets (_strategy s2) !! id m = Some (p.1 - ev0.1, p.2 - ev0.2)) /\
     openedUrls (env s4) = openedUrls (env s)).
Proof.
  intros Hst Hm. cbv zeta.
  destruct (onMouseDown_hit h ev0 s m Hm) as (Hd1 & Hi1 & Hp1 & Hst1 & Hs1 & Ho1 & Hu1).
  destruct (moves_fold_keeps h moves (_onMouseDown h ev0 s) (id m) m ev0 Hd1 Hp1)
    as (Hd2 & Hp2 & Hi2 & Hs2 & Ho2 & Hu2).
  rewrite Hi1 in Hi2. simpl in Hi2.
  set (s1 := _onMouseDown h ev0 s) in *.
  set (s2 := fold_left (fun s ev => _onDocumentMouseMove h ev s) moves s1) in *.
  destruct (onDocumentMouseUp_keeps h evUp s2) as (Hi3 & Ho3 & Hu3).
  set (s3 := _onDocumentMouseUp h evUp s2) in *.
  split; [exact Hi2|split].
  - intros E.
    rewrite E in Hi2.
    destruct (onDocumentMouseUp_not_dragging h evUp s2 Hi2) as (Hst3 & Hs3).
    fold s3 in Hst3, Hs3.
    assert (Hs21 : s2 = s1) by (eapply moves_fold_below; eassumption).
    assert (Hoff : strategy_offsets (_strategy s3) = DiscordDraggable._pixelOffsets ds).
    { rewrite Hst3, Hs21, Hst1, Hst. simpl. apply handleMouseDown_offsets. }
    split; [exact Hoff|split; [congruence|]].
    rewrite clickHandler_not_dragging by congruence.
    rewrite Hu3, Hu2, Hu1. f_equal.
    unfold _messageAtPoint. rewrite Hs3, Hs2, Hs1, Ho3, Ho2, Ho1.
    rewrite (messageAtPoint_loop_ext h (_strategy s3) (_strategy s)); [reflexivity|].
    intros m'.
    rewrite Hst3, Hs21, Hst1, Hst. simpl.
    unfold DiscordDraggable.resolveAnchor. rewrite handleMouseDown_offsets. reflexivity.
  - intros E. rewrite E in Hi2. split.
    + destruct (last moves) as [q|] eqn:Hl.
      2:{ apply last_None in Hl. subst moves. discriminate. }
      exists q. split; [reflexivity|].
      unfold _messageAtPoint in Hm. rewrite Hst in Hm.
      destruct (messageAtPoint_loop_resolves h _ _ _ _ _ _ Hm) as (ax & ay & Ha).
      simpl in Ha.
      eapply (moves_fold_offsets h moves s1 (id m) m ev0
                (DiscordDraggable.handleMouseDown h ds m (ev0.1 - rectLeft h, ev0.2 - rectTop h))
                _ q Hd1 Hp1).
      * rewrite Hst1, Hst. reflexivity.
      * unfold DiscordDraggable.handleMouseDown. rewrite Ha. reflexivity.
      * reflexivity.
      * reflexivity.
      * reflexivity.
      * rewrite Hi1. exact E.
      * exact Hl.
    + rewrite clickHandler_dragging by congruence. congruence.
Qed.

(** Witness of C3: a 10 px drag of [msg1] starting at (110, 110). *)
Lemma C3_witness :
  _strategy stSetup = SDraggable DiscordDraggable.empty /\
  _messageAtPoint hostId stSetup 110 110 = Some msg1 /\
  existsb (reachesThreshold (110, 110)) [(113, 110); (120, 110)] = true /\
  openedUrls (env (_clickHandler hostId (Some (120, 110))
    (_onDocumentMouseUp hostId (120, 110)
      (fold_left (fun s ev => _onDocumentMouseMove hostId ev s) [(113, 110); (120, 110)]
        (_onMouseDown hostId (110, 110) stSetup))))) = openedUrls (env stSetup).
Proof.
  assert (H1 : _strategy stSetup = SDraggable DiscordDraggable.empty) by (vm_compute; reflexivity).
  assert (H2 : _messageAtPoint hostId stSetup (fst (110, 110) - rectLeft hostId)
                 (snd (110, 110) - rectTop hostId) = Some msg1) by (vm_compute; reflexivity).
  assert (H3 : existsb (reachesThreshold (110, 110)) [(113, 110); (120, 110)] = true)
    by (vm_compute; reflexivity).
  pose proof (C3_drag_threshold hostId stSetup DiscordDraggable.empty (110, 110)
                [(113, 110); (120, 110)] (120, 110) (120, 110) msg1 H1 H2) as T.
  cbv zeta in T. destruct T as (_ & _ & T).
  split; [exact H1|split; [exact H2|split; [exact H3|exact (proj2 (T H3))]]].
Defined.

(** Counterexample to C3 as stated: a tap whose moves all stay below 5 px
    but end just off the card opens no URL. *)
Lemma C3_counterexample :
  _messageAtPoint hostId stSetup 380 110 = Some msg1 /\
  reachesThreshold (380, 110) (383, 110) = false /\
  strategy_offsets (_strategy stEdgeTap) = strategy_offsets (_strategy stSetup) /\
  openedUrls (env stEdgeTap) = [] /\
  openedUrls (env stSetup) = [].
Proof. vm_compute. repeat split; reflexivity. Qed.

(** *** C6 *)

(** C6 (code bug). From [stTwoDowns] (a confirmed drag whose gesture saw two
    pointer-downs), switching to fixed mode runs the synthetic release (the
    store write-back moves [msg1] to time 110, the drag record is cleared, the
    fixed strategy is installed) but one document move listener and one
    document up listener stay registered. *)
Lemma C6_mode_switch_leaves_listeners :
  docMoveListeners (env stTwoDowns) = 2%nat /\ docUpListeners (env stTwoDowns) = 2%nat /\
  _isDragging stTwoDowns = true /\
  let s := run hostId [ESetPositioningMode Mfixed] stTwoDowns in
  _dragState s = None /\ _strategy s = SFixed /\ map time (MessagesState.messages (_state s)) = [110] /\
  docMoveListeners (env s) = 1%nat /\ docUpListeners (env s) = 1%nat.
Proof. vm_compute. repeat split; reflexivity. Qed.

(** *** C7 *)

(** C7 (code bug). Detaching from [stTwoDowns] cancels the pending redraw
    (no frame id is kept and none is queued) but leaves one document move
    listener and one document up listener registered. *)
Lemma C7_detach_leaves_listeners :
  isPending (_animationScheduler stTwoDowns) = true /\
  let s := run hostId [EDetached] stTwoDowns in
  isPending (_animationScheduler s) = false /\ rafQueue (env s) = [] /\
  docMoveListeners (env s) = 1%nat /\ docUpListeners (env s) = 1%nat.
Proof. vm_compute. repeat split; reflexivity. Qed.

(** *** C9 *)

Lemma paneView_update_loop_spec h st o hid ms :
  map rd_message (paneView_update_loop h st o hid ms) = List.filter (visible h st) ms /\
  Forall (fun r =>
    strategy_resolveAnchor h st (rd_message r) = (Some (rd_x r), Some (rd_y r)) /\
    rd_anchorX r = timeToCoordinate h (time (rd_message r)) /\
    rd_anchorY r = priceToCoordinate h (price (rd_message r)) /\
    rd_options r = o /\ rd_isHovered r = isHoveredId (rd_message r) hid)
    (paneView_update_loop h st o hid ms).
Proof.
  induction ms as [|m ms [IH1 IH2]]; simpl; [split; [reflexivity|constructor]|].
  unfold visible at 1.
  destruct (strategy_resolveAnchor h st m) as [[ax|] [ay|]] eqn:E; try (split; assumption).
  simpl. rewrite IH1. split; [reflexivity|].
  constructor; [|exact IH2]. simpl. repeat split; [exact E].
Qed.

Lemma paneView008_update_loop_spec h st o hid ms :
  map rd8_message (paneView008_update_loop h st o hid ms) = List.filter (visible h st) ms /\
  Forall (fun r =>
    strategy_resolveAnchor h st (rd8_message r) = (Some (rd8_x r), Some (rd8_y r)) /\
    rd8_options r = o /\ rd8_isHovered r = isHoveredId (rd8_message r) hid)
    (paneView008_update_loop h st o hid ms).
Proof.
  induction ms as [|m ms [IH1 IH2]]; simpl; [split; [reflexivity|constructor]|].
  unfold visible at 1.
  destruct (strategy_resolveAnchor h st m) as [[ax|] [ay|]] eqn:E; try (split; assumption).
  simpl. rewrite IH1. split; [reflexivity|].
  constructor; [|exact IH2]. simpl. repeat split; [exact E].
Qed.

(** C9 (as amended).  For the pane view of [src/unnamed/part_003], whose
    update is also the one of [discord-message/view]: on each update the
    records are, in store order, those of the messages whose resolved anchor
    has both coordinates non-null; each record holds the resolved (displayed)
    position, the base anchor [timeToCoordinate (time m)],
    [priceToCoordinate (price m)] computed without any offset (each possibly
    null), the options, and the hover flag [id m = hoveredId].  For the pane
    view of [src/unnamed/part_008]: the records are for the same messages in
    the same order, and each holds the message, the resolved (displayed)
    position, the options and the hover flag (its record type has no base
    anchor field). *)
Theorem C9_paneView_update h s :
  (map rd_message (paneView_update h s) =
     List.filter (visible h (_strategy s)) (MessagesState.messages (_state s)) /\
   Forall (fun r =>
     strategy_resolveAnchor h (_strategy s) (rd_message r) = (Some (rd_x r), Some (rd_y r)) /\
     rd_anchorX r = timeToCoordinate h (time (rd_message r)) /\
     rd_anchorY r = priceToCoordinate h (price (rd_message r)) /\
     rd_options r = _options s /\
     rd_isHovered r = isHoveredId (rd_message r) (_hoveredMessageId s))
     (paneView_update h s)) /\
  (map rd8_message (paneView008_update h s) =
     List.filter (visible h (_strategy s)) (MessagesState.messages (_state s)) /\
   Forall (fun r =>
     strategy_resolveAnchor h (_strategy s) (rd8_message r) = (Some (rd8_x r), Some (rd8_y r)) /\
     rd8_options r = _options s /\
     rd8_isHovered r = isHoveredId (rd8_message r) (_hoveredMessageId s))
     (paneView008_update h s)).
Proof. split; [apply paneView_update_loop_spec|apply paneView008_update_loop_spec]. Qed.

(** Counterexample to C9 for the pane view of [src/unnamed/part_008]: two
    configurations whose base anchors of [msg1] differ (100 and 110) get the
    same list of records, so those records carry no base anchor. *)
Lemma C9_counterexample :
  paneView008_update hostId stDragging = paneView008_update hostShift stDraggingNoOffset /\
  map (fun r => (rd8_x r, rd8_y r)) (paneView008_update hostId stDragging) = [(110, 100)] /\
  timeToCoordinate hostId (time msg1) = Some 100 /\
  timeToCoordinate hostShift (time msg1) = Some 110 /\
  map rd_anchorX (paneView_update hostId stDragging) = [Some 100] /\
  map rd_anchorX (paneView_update hostShift stDraggingNoOffset) = [Some 110].
Proof. vm_compute. repeat split; reflexivity. Qed.

(** *** C10 *)

(** C10. If the primitive's options object is at [pl] and holds [o], the
    object returned by [options()] is a fresh location; any mutation [f] of it
    leaves the object at [pl] equal to [o] (what rendering and hit-testing
    read), and a later [options()] call again returns a copy of [o]. *)
Theorem C10_options_copy (pl : OptionsHeap.loc) (hp : OptionsHeap.heap) o f :
  hp !! pl = Some o ->
  match OptionsHeap.options pl hp with
  | Some (l, hp') =>
      l <> pl /\
      OptionsHeap.mutate l f hp' !! pl = Some o /\
      match OptionsHeap.options pl (OptionsHeap.mutate l f hp') with
      | Some (l2, hp2) => hp2 !! l2 = Some o
      | None => False
      end
  | None => False
  end.
Proof.
  intros Hpl. unfold OptionsHeap.options. rewrite Hpl.
  set (l := fresh (dom hp)).
  assert (Hl : l <> pl).
  { intros E. apply (is_fresh (dom hp)). change (fresh (dom hp)) with l. rewrite E.
    apply elem_of_dom_2 with o. exact Hpl. }
  assert (Hm : OptionsHeap.mutate l f (<[l:=o]> hp) !! pl = Some o).
  { unfold OptionsHeap.mutate. rewrite lookup_insert_eq.
    rewrite lookup_insert_ne by congruence. rewrite lookup_insert_ne by congruence.
    exact Hpl. }
  split; [exact Hl|split; [exact Hm|]].
  rewrite Hm. apply lookup_insert_eq.
Qed.

(** Witness of C10: the options object at location 1, and a caller that sets
    the positioning mode of the returned copy. *)
Lemma C10_witness :
  ({[1%positive := defaultOptions]} : OptionsHeap.heap) !! 1%positive = Some defaultOptions /\
  match OptionsHeap.options 1%positive {[1%positive := defaultOptions]} with
  | Some (l, hp') =>
      l <> 1%positive /\
      OptionsHeap.mutate l (set_positioningMode Mdraggable) hp' !! 1%positive = Some defaultOptions /\
      match OptionsHeap.options 1%positive
              (OptionsHeap.mutate l (set_positioningMode Mdraggable) hp') with
      | Some (l2, hp2) => hp2 !! l2 = Some defaultOptions
      | None => False
      end
  | None => False
  end.
Proof.
  assert (H : ({[1%positive := defaultOptions]} : OptionsHeap.heap) !! 1%positive
              = Some defaultOptions) by (vm_compute; reflexivity).
  split; [exact H|].
  exact (C10_options_copy 1%positive {[1%positive := defaultOptions]} defaultOptions
           (set_positioningMode Mdraggable) H).
Defined.

(** ** Further properties of the code *)

(** *** [MessagesState] *)

(** X1: [MessagesState.addMessage m] makes [getMessage (id m)] return [m]
    and leaves every other key's message as it was; in the Map the message
    keeps the place of an existing entry with its id, and is appended at the
    end otherwise.  While the store's refresh listener is registered,
    [messages()] then returns the Map's values in that order; after
    [destroy()] it keeps returning the array it returned before. *)
Theorem X1_addMessage_getMessage m st k :
  let st' := MessagesState.addMessage m st in
  MessagesState.getMessage (id m) st' = Some m /\
  (k <> id m -> MessagesState.getMessage k st' = MessagesState.getMessage k st) /\
  map id (MessagesState._messages st') =
    (if map_has (id m) (MessagesState._messages st) then map id (MessagesState._messages st)
     else map id (MessagesState._messages st) ++ [id m]) /\
  MessagesState._subscribed st' = MessagesState._subscribed st /\
  MessagesState.messages st' =
    (if MessagesState._subscribed st then MessagesState._messages st'
     else MessagesState.messages st).
Proof.
  destruct st as [l arr sub]. unfold MessagesState.addMessage, MessagesState.getMessage.
  rewrite !store_messages_fire.
  split; [apply getMessage_map_set_eq|split; [apply getMessage_map_set_ne|split]].
  - simpl. destruct (map_has (id m) l) eqn:E.
    + apply map_set_ids. exact E.
    + rewrite addMessage_new_appends by exact E. rewrite map_app. reflexivity.
  - unfold MessagesState.fire_messagesChanged. destruct sub; split; reflexivity.
Qed.

(** X2: after [removeMessage k], [getMessage k] returns nothing and every
    other key's message is as before; removing a key that is absent leaves
    the store unchanged. *)
Theorem X2_removeMessage_getMessage k k' l :
  getMessage k (removeMessage k l) = None /\
  (k' <> k -> getMessage k' (removeMessage k l) = getMessage k' l) /\
  (map_has k l = false -> removeMessage k l = l).
Proof.
  unfold removeMessage. destruct (map_has k l) eqn:E.
  - split; [apply getMessage_filter_eq|split; [apply getMessage_filter_ne|discriminate]].
  - split; [apply map_has_false_getMessage; exact E|split; auto].
Qed.

(** X3: [updateMessage m] never adds a message: when no message has [id m]
    the store is unchanged, the list of ids is always unchanged, and when
    [id m] is present [getMessage (id m)] returns [m] while other keys keep
    their message. *)
Theorem X3_updateMessage_never_adds m l k :
  (map_has (id m) l = false -> updateMessage m l = l) /\
  map id (updateMessage m l) = map id l /\
  (map_has (id m) l = true -> getMessage (id m) (updateMessage m l) = Some m) /\
  (k <> id m -> getMessage k (updateMessage m l) = getMessage k l).
Proof.
  split; [unfold updateMessage; intros E; rewrite E; reflexivity|].
  split; [apply updateMessage_ids|].
  unfold updateMessage. split.
  - intros E. rewrite E. apply getMessage_map_set_eq.
  - intros Hk. destruct (map_has (id m) l); [apply getMessage_map_set_ne; exact Hk|reflexivity].
Qed.

(** X4: the store keeps its ids unique: if no two messages of the list share
    an id, the same holds after [addMessage], [removeMessage] and
    [updateMessage]. *)
Theorem X4_store_ids_unique m k l :
  NoDup (map id l) ->
  NoDup (map id (addMessage m l)) /\ NoDup (map id (removeMessage k l)) /\
  NoDup (map id (updateMessage m l)).
Proof.
  intros Hnd. split; [|split].
  - apply NoDup_ids_addMessage; exact Hnd.
  - apply NoDup_ids_removeMessage; exact Hnd.
  - apply NoDup_ids_updateMessage; exact Hnd.
Qed.

Lemma X4_witness :
  NoDup (map id [msg1]) /\
  (NoDup (map id (addMessage msg1 [msg1])) /\ NoDup (map id (removeMessage "m1" [msg1])) /\
   NoDup (map id (updateMessage msg1 [msg1]))).
Proof.
  assert (H : NoDup (map id [msg1])) by (simpl; apply NoDup_singleton).
  split; [exact H|apply (X4_store_ids_unique msg1 "m1" [msg1]); exact H].
Defined.

(** *** [_truncateText] *)

Lemma truncate_loop_spec tooWide text fuel j :
  (j <= length text)%nat -> (j <= fuel)%nat ->
  exists k, (k <= j)%nat /\
    truncate_loop tooWide fuel (firstn j text) = firstn k text /\
    (tooWide (firstn k text) = false \/ k = 0%nat) /\
    (forall i, (k < i <= j)%nat -> tooWide (firstn i text) = true).
Proof.
  revert j. induction fuel as [|fuel IH]; intros j Hj Hf.
  - assert (j = 0%nat) by lia. subst j. exists 0%nat.
    repeat split; [lia|right; reflexivity|intros; lia].
  - simpl. rewrite length_firstn, Nat.min_l by exact Hj.
    destruct (tooWide (firstn j text)) eqn:E.
    + destruct j as [|j].
      * exists 0%nat. simpl. repeat split; [lia|right; reflexivity|intros; lia].
      * simpl andb. unfold slice_neg. rewrite length_firstn, Nat.min_l by exact Hj.
        rewrite firstn_firstn, Nat.min_l by lia. replace (S j - 1)%nat with j by lia.
        destruct (IH j ltac:(lia) ltac:(lia)) as (k & Hk & Hr & Hw & Hall).
        exists k. repeat split; [lia|exact Hr|exact Hw|].
        intros i Hi. destruct (Nat.eq_dec i (S j)) as [->|Hne]; [exact E|].
        apply Hall. lia.
    + exists j. rewrite andb_false_l. repeat split; [lia|left; exact E|intros; lia].
Qed.

(** X5: [_truncateText] returns the text unchanged when it fits (or is
    empty); otherwise it drops code units from the end down to the longest
    prefix of length [k < length text] that fits (or to the empty prefix),
    every longer prefix being too wide, and returns that prefix without its
    last three code units followed by ['...']. *)
Theorem X5_truncateText_spec tooWide text :
  (tooWide text = false \/ text = [] -> _truncateText tooWide text = text) /\
  (tooWide text = true -> text <> [] ->
   exists k, (k < length text)%nat /\
     (tooWide (firstn k text) = false \/ k = 0%nat) /\
     (forall i, (k < i <= length text)%nat -> tooWide (firstn i text) = true) /\
     _truncateText tooWide text = firstn (k - 3) text ++ ellipsis).
Proof.
  destruct (truncate_loop_spec tooWide text (length text) (length text) ltac:(lia) ltac:(lia))
    as (k & Hk & Hr & Hw & Hall).
  rewrite firstn_all in Hr. unfold _truncateText. rewrite Hr, length_firstn, Nat.min_l by lia.
  split.
  - intros Hfit. assert (k = length text) as ->.
    { destruct (Nat.eq_dec k (length text)) as [|Hne]; [assumption|].
      assert (Hw' := Hall (length text) ltac:(lia)). rewrite firstn_all in Hw'.
      destruct Hfit as [Hfit| ->]; [congruence|simpl in *; lia]. }
    rewrite Nat.ltb_irrefl, firstn_all. reflexivity.
  - intros Hwide Hne. assert (Hlt : (k < length text)%nat).
    { destruct (Nat.eq_dec k (length text)) as [Heq|]; [|lia]. exfalso.
      destruct Hw as [Hw|Hw].
      - rewrite Heq, firstn_all in Hw. congruence.
      - destruct text; [contradiction|simpl in Heq; lia]. }
    exists k. repeat split; [exact Hlt|exact Hw|exact Hall|].
    apply Nat.ltb_lt in Hlt. rewrite Hlt. unfold slice_neg.
    rewrite length_firstn, Nat.min_l by lia. rewrite firstn_firstn, Nat.min_l by lia.
    reflexivity.
Qed.

(** *** Drag strategies *)

(** X6: when the discord draggable strategy releases the message it is
    dragging, it clears its drag record and keeps the message's id; the
    message is then displayed at [timeToCoordinate (coordinateToTime x)],
    [priceToCoordinate (coordinateToPrice y)] of the position [(x, y)] it had
    before the release, or where it was when the position or a conversion is
    missing; the displayed position of every other message is unchanged. *)
Theorem X6_discord_release_position h s m ev d :
  DiscordDraggable._dragState s = Some d ->
  DiscordDraggable.messageId d = id m ->
  let r := DiscordDraggable.handleMouseUp h s m ev in
  id (snd r) = id m /\
  DiscordDraggable._dragState (fst r) = None /\
  DiscordDraggable.resolveAnchor h (fst r) (snd r) =
    match DiscordDraggable.resolveAnchor h s m with
    | (Some ax, Some ay) =>
        match coordinateToTime h ax, coordinateToPrice h ay with
        | Some t, Some p => (timeToCoordinate h t, priceToCoordinate h p)
        | _, _ => (Some ax, Some ay)
        end
    | r0 => r0
    end /\
  (forall m2, id m2 <> id m ->
   DiscordDraggable.resolveAnchor h (fst r) m2 = DiscordDraggable.resolveAnchor h s m2).
Proof.
  intros Hd Hid r. subst r. unfold DiscordDraggable.handleMouseUp.
  rewrite Hd, Hid, String.eqb_refl.
  destruct (DiscordDraggable.resolveAnchor h s m) as [[ax|] [ay|]] eqn:Er;
    [destruct (coordinateToTime h ax) as [t|] eqn:Et;
     [destruct (coordinateToPrice h ay) as [p|] eqn:Ep|]|..];
    simpl; (split; [reflexivity|split; [reflexivity|]]);
    try (split; [exact Er|intros; reflexivity]).
  split.
  - unfold DiscordDraggable.resolveAnchor, draggable_resolveAnchor. simpl.
    rewrite lookup_delete_eq. reflexivity.
  - intros m2 Hm2. unfold DiscordDraggable.resolveAnchor, draggable_resolveAnchor. simpl.
    rewrite lookup_delete_ne by congruence. reflexivity.
Qed.

Lemma X6_witness :
  DiscordDraggable._dragState discordDrag1 =
    Some {| DiscordDraggable.messageId := "m1";
      DiscordDraggable.startX := 110; DiscordDraggable.startY := 110;
      DiscordDraggable.offsetX := 10; DiscordDraggable.offsetY := 0;
      DiscordDraggable.isDragging := true |} /\
  (let r := DiscordDraggable.handleMouseUp hostId discordDrag1 msg1 (120, 110) in
   id (snd r) = id msg1 /\
   DiscordDraggable._dragState (fst r) = None /\
   DiscordDraggable.resolveAnchor hostId (fst r) (snd r) =
     match DiscordDraggable.resolveAnchor hostId discordDrag1 msg1 with
     | (Some ax, Some ay) =>
         match coordinateToTime hostId ax, coordinateToPrice hostId ay with
         | Some t, Some p => (timeToCoordinate hostId t, priceToCoordinate hostId p)
         | _, _ => (Some ax, Some ay)
         end
     | r0 => r0
     end /\
   (forall m2, id m2 <> id msg1 ->
    DiscordDraggable.resolveAnchor hostId (fst r) m2 =
    DiscordDraggable.resolveAnchor hostId discordDrag1 m2)).
Proof.
  split; [reflexivity|].
  apply (X6_discord_release_position hostId discordDrag1 msg1 (120, 110)
    {| DiscordDraggable.messageId := "m1";
       DiscordDraggable.startX := 110; DiscordDraggable.startY := 110;
       DiscordDraggable.offsetX := 10; DiscordDraggable.offsetY := 0;
       DiscordDraggable.isDragging := true |}); reflexivity.
Defined.

(** X7: the drag handlers of both draggable strategies (discord and social)
    never change the displayed position of a message other than the one the
    handler is called with. *)
Theorem X7_drag_handlers_isolated h m m2 ev :
  id m2 <> id m ->
  (forall s, DiscordDraggable.resolveAnchor h (DiscordDraggable.handleMouseDown h s m ev) m2 =
             DiscordDraggable.resolveAnchor h s m2) /\
  (forall s, DiscordDraggable.resolveAnchor h (DiscordDraggable.handleMouseMove s m ev) m2 =
             DiscordDraggable.resolveAnchor h s m2) /\
  (forall s, DiscordDraggable.resolveAnchor h (fst (DiscordDraggable.handleMouseUp h s m ev)) m2 =
             DiscordDraggable.resolveAnchor h s m2) /\
  (forall s, SocialDraggable.resolveAnchor h (SocialDraggable.handleMouseDown h s m ev) m2 =
             SocialDraggable.resolveAnchor h s m2) /\
  (forall s, SocialDraggable.resolveAnchor h (SocialDraggable.handleMouseMove s m ev) m2 =
             SocialDraggable.resolveAnchor h s m2) /\
  (forall s, SocialDraggable.resolveAnchor h (fst (SocialDraggable.handleMouseUp s m ev)) m2 =
             SocialDraggable.resolveAnchor h s m2).
Proof.
  intros Hne.
  unfold DiscordDraggable.resolveAnchor, SocialDraggable.resolveAnchor, draggable_resolveAnchor.
  repeat split; intros [ds offs]; simpl.
  - unfold DiscordDraggable.handleMouseDown, DiscordDraggable.resolveAnchor.
    cbn [DiscordDraggable._pixelOffsets].
    destruct (draggable_resolveAnchor h offs m) as [[?|] [?|]]; reflexivity.
  - unfold DiscordDraggable.handleMouseMove. destruct ds as [d|]; simpl; [|reflexivity].
    destruct (String.eqb (DiscordDraggable.messageId d) (id m)); simpl; [|reflexivity].
    rewrite lookup_insert_ne by congruence. reflexivity.
  - unfold DiscordDraggable.handleMouseUp, DiscordDraggable.resolveAnchor.
    cbn [DiscordDraggable._pixelOffsets DiscordDraggable._dragState].
    destruct ds as [d|]; simpl; [|reflexivity].
    destruct (String.eqb (DiscordDraggable.messageId d) (id m)); simpl; [|reflexivity].
    destruct (draggable_resolveAnchor h offs m) as [[ax|] [ay|]]; simpl; try reflexivity.
    destruct (coordinateToTime h ax), (coordinateToPrice h ay); simpl; try reflexivity.
    rewrite lookup_delete_ne by congruence. reflexivity.
  - unfold SocialDraggable.handleMouseDown, SocialDraggable.resolveAnchor.
    cbn [SocialDraggable._pixelOffsets].
    destruct (draggable_resolveAnchor h offs m) as [[?|] [?|]]; reflexivity.
  - unfold SocialDraggable.handleMouseMove. destruct ds as [d|]; simpl; [|reflexivity].
    destruct (String.eqb (SocialDraggable.messageId d) (id m)); simpl; [|reflexivity].
    rewrite lookup_insert_ne by congruence. reflexivity.
  - unfold SocialDraggable.handleMouseUp. destruct ds as [d|]; simpl; [|reflexivity].
    destruct (String.eqb (SocialDraggable.messageId d) (id m)); reflexivity.
Qed.

Lemma X7_witness :
  id msg2 <> id msg1 /\
  ((forall s, DiscordDraggable.resolveAnchor hostId (DiscordDraggable.handleMouseDown hostId s msg1 (0, 0)) msg2 =
              DiscordDraggable.resolveAnchor hostId s msg2) /\
   (forall s, DiscordDraggable.resolveAnchor hostId (DiscordDraggable.handleMouseMove s msg1 (0, 0)) msg2 =
              DiscordDraggable.resolveAnchor hostId s msg2) /\
   (forall s, DiscordDraggable.resolveAnchor hostId (fst (DiscordDraggable.handleMouseUp hostId s msg1 (0, 0))) msg2 =
              DiscordDraggable.resolveAnchor hostId s msg2) /\
   (forall s, SocialDraggable.resolveAnchor hostId (SocialDraggable.handleMouseDown hostId s msg1 (0, 0)) msg2 =
              SocialDraggable.resolveAnchor hostId s msg2) /\
   (forall s, SocialDraggable.resolveAnchor hostId (SocialDraggable.handleMouseMove s msg1 (0, 0)) msg2 =
              SocialDraggable.resolveAnchor hostId s msg2) /\
   (forall s, SocialDraggable.resolveAnchor hostId (fst (SocialDraggable.handleMouseUp s msg1 (0, 0))) msg2 =
              SocialDraggable.resolveAnchor hostId s msg2)).
Proof.
  assert (H : id msg2 <> id msg1) by discriminate.
  split; [exact H|]. apply (X7_drag_handlers_isolated hostId msg1 msg2 (0, 0)). exact H.
Defined.

(** *** Invariants of the primitive *)

(** X8: in every state reachable from the constructor through host events
    and calls of the primitive's methods (message updates, [applyOptions],
    [setPositioningMode], [updatePositioningMode], [attached], [detached]),
    the store's Map has distinct ids, so has the array [messages()], and the
    array lists the Map's values as long as [destroy()] has not been called;
    the animation frames queued with the host are exactly the scheduler's
    pending one (at most one), the drag record and the drag start position
    are set and cleared together, and [_isDragging] is only set while a drag
    record exists or a reset timer is pending. *)
Theorem X8_reachable_invariant h s :
  reachable h s ->
  NoDup (map id (MessagesState._messages (_state s))) /\
  NoDup (map id (MessagesState.messages (_state s))) /\
  (MessagesState._subscribed (_state s) = true ->
   MessagesState.messages (_state s) = MessagesState._messages (_state s)) /\
  rafQueue (env s) = match _rafId (_animationScheduler s) with
                     | Some r => [r] | None => [] end /\
  (_dragState s = None <-> _dragStartPos s = None) /\
  (_isDragging s = true -> _dragState s <> None \/ (0 < pendingTimeouts (env s))%nat).
Proof.
  intros Hr. destruct (Inv_reachable h s Hr) as ((Hn1 & Hn2 & Hsub) & Hraf & Hdp & Hcu).
  do 4 (split; [assumption|]). split; [|exact Hcu].
  unfold drag_paired in Hdp.
  destruct (_dragState s), (_dragStartPos s); first [contradiction | split; congruence].
Qed.

Lemma X8_witness :
  reachable hostId stReattachedDrag /\
  (NoDup (map id (MessagesState._messages (_state stReattachedDrag))) /\
   NoDup (map id (MessagesState.messages (_state stReattachedDrag))) /\
   (MessagesState._subscribed (_state stReattachedDrag) = true ->
    MessagesState.messages (_state stReattachedDrag) =
    MessagesState._messages (_state stReattachedDrag)) /\
   rafQueue (env stReattachedDrag) = match _rafId (_animationScheduler stReattachedDrag) with
                                     | Some r => [r] | None => [] end /\
   (_dragState stReattachedDrag = None <-> _dragStartPos stReattachedDrag = None) /\
   (_isDragging stReattachedDrag = true ->
    _dragState stReattachedDrag <> None \/ (0 < pendingTimeouts (env stReattachedDrag))%nat)).
Proof.
  assert (H : reachable hostId stReattachedDrag)
    by (exists defaultOptions, (setupEvents ++ [EDetached; EAttached; EApplyOptions poDraggable;
                                                 EChartMouseDown (110, 110); EDocMouseMove (120, 110)]);
        unfold stReattachedDrag, stSetup, run; rewrite fold_left_app; reflexivity).
  split; [exact H|apply (X8_reachable_invariant hostId stReattachedDrag); exact H].
Defined.

(** *** Clicks, mode switches and detachment *)

(** X9: in a reachable attached state with no drag record and no pending
    reset timer, a click at a point does nothing when [hitTest] reports no
    item there; when it reports an item, that item carries the
    [cursorOnHover] option and the id ["discord-message-" ++ id m] of a
    message [m], and the click appends [m.discordUrl] to the opened URLs and
    changes nothing else. *)
Theorem X9_click_follows_hitTest h s px py :
  reachable h s -> chartAttached (env s) = true -> _dragState s = None ->
  pendingTimeouts (env s) = 0%nat ->
  match hitTest h s px py with
  | None => step h (EClick (Some (px, py))) s = s
  | Some it =>
      exists m, externalId it = String.append "discord-message-" (id m) /\
        cursorStyle it = cursorOnHover (_options s) /\
        step h (EClick (Some (px, py))) s =
          set_env (env_set_opened (openedUrls (env s) ++ [discordUrl m]) (env s)) s
  end.
Proof.
  intros Hr Hatt Hds Hpt. destruct (Inv_reachable h s Hr) as (_ & _ & _ & Hcu).
  assert (Hisd : _isDragging s = false).
  { destruct (_isDragging s) eqn:E; [|reflexivity].
    destruct (Hcu E) as [H|H]; [contradiction|lia]. }
  simpl. rewrite Hatt. unfold hitTest, _clickHandler. rewrite Hisd.
  destruct (_messageAtPoint h s px py) as [m|]; [|reflexivity].
  exists m. simpl. repeat split.
Qed.

(** [stDragEnded] once the reset timer has fired. *)
Lemma X9_witness :
  let s := run hostId [ETimeout] stDragEnded in
  (reachable hostId s /\ chartAttached (env s) = true /\ _dragState s = None /\
   pendingTimeouts (env s) = 0%nat) /\
  match hitTest hostId s 115 110 with
  | None => step hostId (EClick (Some (115, 110))) s = s
  | Some it =>
      exists m, externalId it = String.append "discord-message-" (id m) /\
        cursorStyle it = cursorOnHover (_options s) /\
        step hostId (EClick (Some (115, 110))) s =
          set_env (env_set_opened (openedUrls (env s) ++ [discordUrl m]) (env s)) s
  end.
Proof.
  intros s.
  assert (Hr : reachable hostId s)
    by (exists defaultOptions, (setupEvents ++ [EChartMouseDown (110, 110); EDocMouseMove (120, 110);
                                                 EDocMouseUp (120, 110); ETimeout]);
        reflexivity).
  assert (H1 : chartAttached (env s) = true) by reflexivity.
  assert (H2 : _dragState s = None) by reflexivity.
  assert (H3 : pendingTimeouts (env s) = 0%nat) by reflexivity.
  split; [repeat split; assumption|].
  apply (X9_click_follows_hitTest hostId s 115 110 Hr H1 H2 H3).
Defined.


Lemma resolve_fresh_strategy h m :
  strategy_resolveAnchor h (SDraggable DiscordDraggable.empty) m = fixed_resolveAnchor h m.
Proof.
  unfold strategy_resolveAnchor, DiscordDraggable.resolveAnchor, draggable_resolveAnchor,
    fixed_resolveAnchor. simpl. rewrite lookup_empty. reflexivity.
Qed.

Lemma onDocumentMouseUp_clears h ev s :
  _dragState s <> None ->
  let s' := _onDocumentMouseUp h ev s in
  _dragState s' = None /\ _dragStartPos s' = None /\ _options s' = _options s.
Proof.
  intros Hd. destr_prim s. unfold _onDocumentMouseUp; simpl.
  destruct ds as [[mid dm]|]; [|contradiction].
  destruct isd; [destruct (strategy_handleMouseUp h strat dm _) as [st' dm']|];
    unfold _removeDocumentDragListeners; simpl; destruct dmh, duh; simpl;
    repeat split; reflexivity.
Qed.

Lemma detachDragListeners_clears s :
  let s' := _detachDragListeners s in
  _dragState s' = None /\ _dragStartPos s' = None /\ _options s' = _options s.
Proof.
  unfold _detachDragListeners. cbv zeta.
  assert (Ho : _options (_removeDocumentDragListeners s) = _options s).
  { destr_prim s. unfold _removeDocumentDragListeners. simpl. destruct dmh, duh; reflexivity. }
  rewrite <- Ho. destruct (_removeDocumentDragListeners s) as
    [st o strat hov ds mdh dmh duh isd dsp [rid cb] [att dml dul mdl rq rn pt pmm ou]].
  destruct mdh; simpl; repeat split; reflexivity.
Qed.

Lemma attachDragListeners_keeps s :
  let s' := _attachDragListeners s in
  _dragState s' = _dragState s /\ _dragStartPos s' = _dragStartPos s /\
  _options s' = _options s /\ _strategy s' = _strategy s.
Proof. destr_prim s. repeat split; reflexivity. Qed.

Lemma set_strategy_fields v s :
  _strategy (set_strategy v s) = v /\ _dragState (set_strategy v s) = _dragState s /\
  _dragStartPos (set_strategy v s) = _dragStartPos s /\ _options (set_strategy v s) = _options s.
Proof. destr_prim s. repeat split; reflexivity. Qed.

Lemma updatePositioningMode_resets h md s :
  drag_paired s ->
  let s' := updatePositioningMode h md s in
  _dragState s' = None /\ _dragStartPos s' = None /\ _options s' = _options s /\
  _strategy s' = match md with
                 | Mfixed => SFixed
                 | Mdraggable => SDraggable DiscordDraggable.empty
                 end.
Proof.
  intros Hdp. unfold updatePositioningMode. cbv zeta.
  assert (H1 : let s1 := match _dragState s with
                         | Some _ => _onDocumentMouseUp h syntheticMouseUp s | None => s end in
               _dragState s1 = None /\ _dragStartPos s1 = None /\ _options s1 = _options s).
  { unfold drag_paired in Hdp. destruct (_dragState s) eqn:Ed.
    - destruct (onDocumentMouseUp_clears h syntheticMouseUp s ltac:(congruence)) as (F1 & F2 & F3).
      simpl. rewrite F1, F2, F3. repeat split.
    - simpl. split; [exact Ed|split; [|reflexivity]].
      destruct (_dragStartPos s); [contradiction|reflexivity]. }
  revert H1. cbv zeta.
  generalize (match _dragState s with
              | Some _ => _onDocumentMouseUp h syntheticMouseUp s | None => s end).
  intros s1 (E1 & E2 & E3). rewrite <- E3.
  assert (H2 : let s2 := if PositioningMode_eqb (positioningMode (_options s1)) Mdraggable
                         then _detachDragListeners s1 else s1 in
               _dragState s2 = None /\ _dragStartPos s2 = None /\ _options s2 = _options s1).
  { destruct (PositioningMode_eqb _ _); [|repeat split; assumption].
    destruct (detachDragListeners_clears s1) as (F1 & F2 & F3).
    simpl. rewrite F1, F2, F3. repeat split. }
  revert H2. cbv zeta.
  generalize (if PositioningMode_eqb (positioningMode (_options s1)) Mdraggable
              then _detachDragListeners s1 else s1).
  intros s2 (G1 & G2 & G3). rewrite <- G3.
  set (fresh := match md with
                | Mfixed => SFixed
                | Mdraggable => SDraggable DiscordDraggable.empty
                end).
  set (s3 := set_strategy fresh (set_strategy (strategy_detach (_strategy s2)) s2)).
  assert (H3 : _dragState s3 = None /\ _dragStartPos s3 = None /\
               _options s3 = _options s2 /\ _strategy s3 = fresh).
  { subst s3. destruct (set_strategy_fields fresh (set_strategy (strategy_detach (_strategy s2)) s2))
      as (F1 & F2 & F3 & F4).
    destruct (set_strategy_fields (strategy_detach (_strategy s2)) s2) as (K1 & K2 & K3 & K4).
    rewrite F1, F2, F3, F4, K2, K3, K4. repeat split; assumption. }
  destruct H3 as (F1 & F2 & F3 & F4).
  destruct (_ && _).
  - destruct (attachDragListeners_keeps s3) as (K1 & K2 & K3 & K4).
    rewrite K1, K2, K3, K4. repeat split; assumption.
  - repeat split; assumption.
Qed.

Lemma fresh_strategy_resolves h md m :
  strategy_resolveAnchor h (match md with
                            | Mfixed => SFixed
                            | Mdraggable => SDraggable DiscordDraggable.empty
                            end) m = fixed_resolveAnchor h m.
Proof. destruct md; [reflexivity|apply resolve_fresh_strategy]. Qed.

(** X10: from any reachable state, [setPositioningMode md] ends with no drag
    record and no drag start position, the options' [positioningMode] equal
    to [md], and a newly created strategy ([Fixed] or an empty [Draggable]):
    every pixel offset is dropped, even when the mode does not change, and
    every message is displayed at its base anchor. *)
Theorem X10_setPositioningMode_resets h md s :
  reachable h s ->
  let s' := setPositioningMode h md s in
  _dragState s' = None /\ _dragStartPos s' = None /\
  positioningMode (_options s') = md /\
  _strategy s' = match md with
                 | Mfixed => SFixed
                 | Mdraggable => SDraggable DiscordDraggable.empty
                 end /\
  (forall m, strategy_resolveAnchor h (_strategy s') m = fixed_resolveAnchor h m).
Proof.
  intros Hr. destruct (Inv_reachable h s Hr) as (_ & _ & Hdp & _).
  unfold setPositioningMode. cbv zeta.
  assert (H0 : drag_paired (set_options (set_positioningMode md (_options s)) s) /\
               positioningMode (_options (set_options (set_positioningMode md (_options s)) s)) = md)
    by (destr_prim s; destruct o; split; [exact Hdp|reflexivity]).
  revert H0. generalize (set_options (set_positioningMode md (_options s)) s). intros s0 (Hp & Hm).
  destruct (updatePositioningMode_resets h md s0 Hp) as (F1 & F2 & F3 & F4).
  rewrite F1, F2, F3, F4. repeat split; [exact Hm|]. apply fresh_strategy_resolves.
Qed.

Lemma X10_witness :
  reachable hostId stDragging /\
  (let s' := setPositioningMode hostId Mfixed stDragging in
   _dragState s' = None /\ _dragStartPos s' = None /\
   positioningMode (_options s') = Mfixed /\
   _strategy s' = match Mfixed with
                  | Mfixed => SFixed
                  | Mdraggable => SDraggable DiscordDraggable.empty
                  end /\
   (forall m, strategy_resolveAnchor hostId (_strategy s') m = fixed_resolveAnchor hostId m)).
Proof.
  assert (H : reachable hostId stDragging)
    by (exists defaultOptions, (setupEvents ++ [EChartMouseDown (110, 110); EDocMouseMove (120, 110)]);
        reflexivity).
  split; [exact H|apply (X10_setPositioningMode_resets hostId Mfixed stDragging); exact H].
Defined.


(** X15: from any reachable state, a direct call [updatePositioningMode md]
    ends with no drag record and no drag start position and a newly created
    strategy for [md] (every message displayed at its base anchor), but
    leaves the options unchanged, so [options().positioningMode] keeps its
    previous value; [applyOptions po] stores [{ ...options, ...po }] and,
    when [po] has a [positioningMode], resets the drag and the strategy in
    the same way, otherwise it leaves them as they were. *)
Theorem X15_updatePositioningMode_applyOptions h md po s :
  reachable h s ->
  (let s' := updatePositioningMode h md s in
   _dragState s' = None /\ _dragStartPos s' = None /\ _options s' = _options s /\
   _strategy s' = match md with
                  | Mfixed => SFixed
                  | Mdraggable => SDraggable DiscordDraggable.empty
                  end /\
   (forall m, strategy_resolveAnchor h (_strategy s') m = fixed_resolveAnchor h m)) /\
  (let s' := applyOptions h po s in
   _options s' = mergeOptions po (_options s) /\
   match po_positioningMode po with
   | Some md' =>
       _dragState s' = None /\ _dragStartPos s' = None /\
       _strategy s' = match md' with
                      | Mfixed => SFixed
                      | Mdraggable => SDraggable DiscordDraggable.empty
                      end
   | None => _dragState s' = _dragState s /\ _dragStartPos s' = _dragStartPos s /\
             _strategy s' = _strategy s
   end).
Proof.
  intros Hr. destruct (Inv_reachable h s Hr) as (_ & _ & Hdp & _). split.
  - destruct (updatePositioningMode_resets h md s Hdp) as (F1 & F2 & F3 & F4). cbv zeta.
    rewrite F1, F2, F3, F4. repeat split. apply fresh_strategy_resolves.
  - unfold applyOptions. cbv zeta.
    assert (H0 : drag_paired (set_options (mergeOptions po (_options s)) s) /\
                 _options (set_options (mergeOptions po (_options s)) s) = mergeOptions po (_options s) /\
                 _dragState (set_options (mergeOptions po (_options s)) s) = _dragState s /\
                 _dragStartPos (set_options (mergeOptions po (_options s)) s) = _dragStartPos s /\
                 _strategy (set_options (mergeOptions po (_options s)) s) = _strategy s)
      by (destr_prim s; repeat split; exact Hdp).
    revert H0. generalize (set_options (mergeOptions po (_options s)) s).
    intros s0 (Hp & Ho & Hd & Hsp & Hst).
    destruct (po_positioningMode po) as [md'|].
    + destruct (updatePositioningMode_resets h md' s0 Hp) as (F1 & F2 & F3 & F4).
      rewrite F1, F2, F3, F4, Ho. repeat split.
    + repeat split; assumption.
Qed.

Lemma X15_witness :
  reachable hostId stDragging /\
  ((let s' := updatePositioningMode hostId Mfixed stDragging in
    _dragState s' = None /\ _dragStartPos s' = None /\ _options s' = _options stDragging /\
    _strategy s' = match Mfixed with
                   | Mfixed => SFixed
                   | Mdraggable => SDraggable DiscordDraggable.empty
                   end /\
    (forall m, strategy_resolveAnchor hostId (_strategy s') m = fixed_resolveAnchor hostId m)) /\
   (let s' := applyOptions hostId poDraggable stDragging in
    _options s' = mergeOptions poDraggable (_options stDragging) /\
    match po_positioningMode poDraggable with
    | Some md' =>
        _dragState s' = None /\ _dragStartPos s' = None /\
        _strategy s' = match md' with
                       | Mfixed => SFixed
                       | Mdraggable => SDraggable DiscordDraggable.empty
                       end
    | None => _dragState s' = _dragState stDragging /\ _dragStartPos s' = _dragStartPos stDragging /\
              _strategy s' = _strategy stDragging
    end)).
Proof.
  assert (H : reachable hostId stDragging)
    by (exists defaultOptions, (setupEvents ++ [EChartMouseDown (110, 110); EDocMouseMove (120, 110)]);
        reflexivity).
  split; [exact H|apply (X15_updatePositioningMode_applyOptions hostId Mfixed poDraggable stDragging); exact H].
Defined.

Lemma removeDocumentDragListeners_fields s :
  let s' := _removeDocumentDragListeners s in
  _documentMouseMoveHandler s' = false /\ _documentMouseUpHandler s' = false /\
  _strategy s' = _strategy s.
Proof.
  destr_prim s. unfold _removeDocumentDragListeners. destruct dmh, duh; simpl;
    repeat split; reflexivity.
Qed.

Lemma detachDragListeners_fields s :
  let s' := _detachDragListeners s in
  _dragState s' = None /\ _dragStartPos s' = None /\ _isDragging s' = false /\
  _mouseDownHandler s' = false /\ _documentMouseMoveHandler s' = false /\
  _documentMouseUpHandler s' = false /\ _strategy s' = _strategy s.
Proof.
  unfold _detachDragListeners. cbv zeta.
  destruct (removeDocumentDragListeners_fields s) as (F1 & F2 & F3).
  rewrite <- F3. revert F1 F2.
  destruct (_removeDocumentDragListeners s) as
    [st o strat hov ds mdh dmh duh isd dsp [rid cb] [att dml dul mdl rq rn pt pmm ou]].
  simpl. intros -> ->. destruct mdh; simpl; repeat split; reflexivity.
Qed.

(** X11: [detached] always leaves no drag record, no drag start position,
    [_isDragging] false, no pending animation frame in the scheduler, none of
    the three handler fields set, and the chart marked detached; the strategy
    is reset, so every pixel offset is dropped and every message is displayed
    at its base anchor afterwards. *)
Theorem X11_detached_resets h s :
  let s' := detached s in
  _dragState s' = None /\ _dragStartPos s' = None /\ _isDragging s' = false /\
  _rafId (_animationScheduler s') = None /\
  _mouseDownHandler s' = false /\ _documentMouseMoveHandler s' = false /\
  _documentMouseUpHandler s' = false /\ chartAttached (env s') = false /\
  (forall m, strategy_resolveAnchor h (_strategy s') m = fixed_resolveAnchor h m).
Proof.
  unfold detached.
  destruct (detachDragListeners_fields (_removeDocumentDragListeners s))
    as (F1 & F2 & F3 & F4 & F5 & F6 & _).
  revert F1 F2 F3 F4 F5 F6.
  generalize (_detachDragListeners (_removeDocumentDragListeners s)). intros s2.
  destr_prim s2. simpl. intros -> -> -> -> -> ->.
  unfold cancel. simpl. repeat split. intros m.
  destruct strat; simpl; [reflexivity|apply resolve_fresh_strategy].
Qed.

(** *** [AnimationScheduler] *)

(** X12: when the host's queue holds exactly the scheduler's pending frame,
    [schedule cb] cancels that frame and leaves exactly one new frame queued,
    with [isPending] true and [cb] as the callback; [cancel] leaves no frame
    queued, [isPending] false and no callback. *)
Theorem X12_scheduler_single_frame sch e cb :
  rafQueue e = match _rafId sch with Some r => [r] | None => [] end ->
  (let '(sch', e') := schedule sch e cb in
   isPending sch' = true /\ _callback sch' = Some cb /\
   rafQueue e' = [rafNext e] /\ _rafId sch' = Some (rafNext e)) /\
  (let '(sch', e') := cancel sch e in
   isPending sch' = false /\ _callback sch' = None /\ rafQueue e' = []).
Proof.
  intros Hq. unfold schedule, cancel. simpl.
  destruct (_rafId sch) as [r|]; rewrite Hq; [rewrite filter_raf_self|];
    repeat split; reflexivity.
Qed.

Lemma X12_witness :
  rafQueue (env stDragging) =
    match _rafId (_animationScheduler stDragging) with Some r => [r] | None => [] end /\
  ((let '(sch', e') := schedule (_animationScheduler stDragging) (env stDragging) requestUpdateCb in
    isPending sch' = true /\ _callback sch' = Some requestUpdateCb /\
    rafQueue e' = [rafNext (env stDragging)] /\ _rafId sch' = Some (rafNext (env stDragging))) /\
   (let '(sch', e') := cancel (_animationScheduler stDragging) (env stDragging) in
    isPending sch' = false /\ _callback sch' = None /\ rafQueue e' = [])).
Proof.
  assert (H : rafQueue (env stDragging) =
    match _rafId (_animationScheduler stDragging) with Some r => [r] | None => [] end)
    by reflexivity.
  split; [exact H|].
  apply (X12_scheduler_single_frame (_animationScheduler stDragging) (env stDragging)
           requestUpdateCb H).
Defined.

(** *** Message ids across the primitive's events *)

Lemma state_onMouseDown h ev s : _state (_onMouseDown h ev s) = _state s.
Proof.
  unfold _onMouseDown. cbv zeta. destruct (_messageAtPoint h s _ _); [|reflexivity].
  destr_prim s. reflexivity.
Qed.

Lemma state_onDocumentMouseMove h ev s : _state (_onDocumentMouseMove h ev s) = _state s.
Proof.
  destr_prim s. unfold _onDocumentMouseMove. simpl.
  destruct ds as [[? dm]|], dsp as [[sx sy]|]; try reflexivity.
  destruct (negb isd && _); reflexivity.
Qed.

Lemma ids_onDocumentMouseUp h ev s :
  map id (MessagesState._messages (_state (_onDocumentMouseUp h ev s))) =
  map id (MessagesState._messages (_state s)).
Proof.
  destr_prim s. unfold _onDocumentMouseUp. simpl.
  destruct ds as [[mid dm]|]; [|reflexivity].
  destruct isd; [destruct (strategy_handleMouseUp _ _ _ _) as [st' dm']|];
    unfold _removeDocumentDragListeners; simpl; destruct dmh, duh; simpl;
    try reflexivity;
    rewrite store_messages_updateMessage, updateMessage_ids;
    destruct (MessagesState._subscribed st); reflexivity.
Qed.

Lemma state_removeDocumentDragListeners s : _state (_removeDocumentDragListeners s) = _state s.
Proof. destr_prim s. unfold _removeDocumentDragListeners. destruct dmh, duh; reflexivity. Qed.

Lemma state_detachDragListeners s : _state (_detachDragListeners s) = _state s.
Proof.
  unfold _detachDragListeners. cbv zeta. rewrite <- (state_removeDocumentDragListeners s).
  destruct (_removeDocumentDragListeners s) as
    [st o strat hov ds mdh dmh duh isd dsp [rid cb] [att dml dul mdl rq rn pt pmm ou]].
  destruct mdh; reflexivity.
Qed.

Lemma ids_updatePositioningMode h md s :
  map id (MessagesState._messages (_state (updatePositioningMode h md s))) =
  map id (MessagesState._messages (_state s)).
Proof.
  unfold updatePositioningMode. cbv zeta.
  assert (H1 : map id (MessagesState._messages (_state (match _dragState s with
                               | Some _ => _onDocumentMouseUp h syntheticMouseUp s
                               | None => s end))) = map id (MessagesState._messages (_state s)))
    by (destruct (_dragState s); [apply ids_onDocumentMouseUp|reflexivity]).
  rewrite <- H1. generalize (match _dragState s with
                             | Some _ => _onDocumentMouseUp h syntheticMouseUp s
                             | None => s end). intros s1.
  assert (H2 : _state (if PositioningMode_eqb (positioningMode (_options s1)) Mdraggable
                       then _detachDragListeners s1 else s1) = _state s1)
    by (destruct (PositioningMode_eqb _ _); [apply state_detachDragListeners|reflexivity]).
  rewrite <- H2. generalize (if PositioningMode_eqb (positioningMode (_options s1)) Mdraggable
                             then _detachDragListeners s1 else s1). intros s2.
  destr_prim s2. simpl. destruct (_ && _); reflexivity.
Qed.

Lemma ids_setPositioningMode h md s :
  map id (MessagesState._messages (_state (setPositioningMode h md s))) =
  map id (MessagesState._messages (_state s)).
Proof.
  unfold setPositioningMode. cbv zeta. rewrite ids_updatePositioningMode. destr_prim s. reflexivity.
Qed.

Lemma ids_applyOptions h po s :
  map id (MessagesState._messages (_state (applyOptions h po s))) =
  map id (MessagesState._messages (_state s)).
Proof.
  unfold applyOptions. cbv zeta. destruct (po_positioningMode po);
    [rewrite ids_updatePositioningMode|]; destr_prim s; reflexivity.
Qed.

Lemma state_detached s : _state (detached s) = MessagesState.destroy (_state s).
Proof.
  unfold detached. rewrite <- (state_removeDocumentDragListeners s).
  rewrite <- (state_detachDragListeners (_removeDocumentDragListeners s)).
  generalize (_detachDragListeners (_removeDocumentDragListeners s)). intros s2.
  destr_prim s2. reflexivity.
Qed.

Lemma ids_step h e s :
  adds_or_removes e = false ->
  map id (MessagesState._messages (_state (step h e s))) =
  map id (MessagesState._messages (_state s)).
Proof.
  intros He. destruct e; simpl in He |- *; try discriminate.
  - induction (mouseDownListeners (env s)) as [|n IH]; simpl; [reflexivity|].
    rewrite state_onMouseDown. exact IH.
  - induction (docMoveListeners (env s)) as [|n IH]; simpl; [reflexivity|].
    rewrite state_onDocumentMouseMove. exact IH.
  - induction (docUpListeners (env s)) as [|n IH]; simpl; [reflexivity|].
    rewrite ids_onDocumentMouseUp. exact IH.
  - destruct (chartAttached (env s)); [|reflexivity].
    unfold _clickHandler. destruct point as [[px py]|]; [|reflexivity].
    destruct (_isDragging s); [reflexivity|]. destruct (_messageAtPoint h s px py); [|reflexivity].
    destr_prim s. reflexivity.
  - destruct (chartAttached (env s)); [|reflexivity].
    destr_prim s. unfold _onCrosshairMove. simpl.
    destruct ds as [[? ?]|]; [destruct isd|]; destruct point as [[? ?]|]; reflexivity.
  - destr_prim s. unfold fireTimeout. simpl. destruct pt; reflexivity.
  - destr_prim s. unfold fireAnimationFrame. simpl. destruct rid; reflexivity.
  - apply ids_setPositioningMode.
  - apply ids_updatePositioningMode.
  - apply ids_applyOptions.
  - destr_prim s. simpl. rewrite store_messages_updateMessage. apply updateMessage_ids.
  - unfold attached. cbv zeta. destr_prim s. simpl. destruct (PositioningMode_eqb _ _); reflexivity.
  - rewrite state_detached. reflexivity.
Qed.

Lemma sub_fire l st :
  MessagesState._subscribed (MessagesState.fire_messagesChanged (MessagesState.set_messages l st)) =
  MessagesState._subscribed st.
Proof. destruct st as [ms arr [|]]; reflexivity. Qed.

Lemma sub_updateMessage m st :
  MessagesState._subscribed (MessagesState.updateMessage m st) = MessagesState._subscribed st.
Proof. unfold MessagesState.updateMessage. destruct (map_has _ _); [apply sub_fire|reflexivity]. Qed.

Lemma sub_onDocumentMouseUp h ev s :
  MessagesState._subscribed (_state (_onDocumentMouseUp h ev s)) = MessagesState._subscribed (_state s).
Proof.
  destr_prim s. unfold _onDocumentMouseUp. simpl.
  destruct ds as [[mid dm]|]; [|reflexivity].
  destruct isd; [destruct (strategy_handleMouseUp _ _ _ _) as [st' dm']|];
    unfold _removeDocumentDragListeners; simpl; destruct dmh, duh; simpl;
    try reflexivity;
    rewrite sub_updateMessage; destruct st as [ms arr [|]]; reflexivity.
Qed.

Lemma sub_updatePositioningMode h md s :
  MessagesState._subscribed (_state (updatePositioningMode h md s)) =
  MessagesState._subscribed (_state s).
Proof.
  unfold updatePositioningMode. cbv zeta.
  assert (H1 : MessagesState._subscribed (_state (match _dragState s with
                               | Some _ => _onDocumentMouseUp h syntheticMouseUp s
                               | None => s end)) = MessagesState._subscribed (_state s))
    by (destruct (_dragState s); [apply sub_onDocumentMouseUp|reflexivity]).
  rewrite <- H1. generalize (match _dragState s with
                             | Some _ => _onDocumentMouseUp h syntheticMouseUp s
                             | None => s end). intros s1.
  assert (H2 : _state (if PositioningMode_eqb (positioningMode (_options s1)) Mdraggable
                       then _detachDragListeners s1 else s1) = _state s1)
    by (destruct (PositioningMode_eqb _ _); [apply state_detachDragListeners|reflexivity]).
  rewrite <- H2. generalize (if PositioningMode_eqb (positioningMode (_options s1)) Mdraggable
                             then _detachDragListeners s1 else s1). intros s2.
  destr_prim s2. simpl. destruct (_ && _); reflexivity.
Qed.

Lemma sub_step h e s :
  MessagesState._subscribed (_state (step h e s)) =
  match e with EDetached => false | _ => MessagesState._subscribed (_state s) end.
Proof.
  destruct e; simpl.
  - induction (mouseDownListeners (env s)) as [|n IH]; simpl; [reflexivity|].
    rewrite state_onMouseDown. exact IH.
  - induction (docMoveListeners (env s)) as [|n IH]; simpl; [reflexivity|].
    rewrite state_onDocumentMouseMove. exact IH.
  - induction (docUpListeners (env s)) as [|n IH]; simpl; [reflexivity|].
    rewrite sub_onDocumentMouseUp. exact IH.
  - destruct (chartAttached (env s)); [|reflexivity].
    unfold _clickHandler. destruct point as [[px py]|]; [|reflexivity].
    destruct (_isDragging s); [reflexivity|]. destruct (_messageAtPoint h s px py); [|reflexivity].
    destr_prim s. reflexivity.
  - destruct (chartAttached (env s)); [|reflexivity].
    destr_prim s. unfold _onCrosshairMove. simpl.
    destruct ds as [[? ?]|]; [destruct isd|]; destruct point as [[? ?]|]; reflexivity.
  - destr_prim s. unfold fireTimeout. simpl. destruct pt; reflexivity.
  - destr_prim s. unfold fireAnimationFrame. simpl. destruct rid; reflexivity.
  - unfold setPositioningMode. cbv zeta. rewrite sub_updatePositioningMode. destr_prim s. reflexivity.
  - apply sub_updatePositioningMode.
  - unfold applyOptions. cbv zeta. destruct (po_positioningMode po);
      [rewrite sub_updatePositioningMode|]; destr_prim s; reflexivity.
  - destr_prim s. simpl. unfold MessagesState.addMessage. apply sub_fire.
  - destr_prim s. simpl. unfold MessagesState.removeMessage.
    destruct (map_has _ _); [apply sub_fire|reflexivity].
  - destr_prim s. simpl. apply sub_updateMessage.
  - unfold attached. cbv zeta. destr_prim s. simpl. destruct (PositioningMode_eqb _ _); reflexivity.
  - rewrite state_detached. reflexivity.
Qed.

(** X13: a sequence of events none of which is [addMessage] or
    [removeMessage] (pointer and click events, crosshair moves, timers,
    animation frames, mode switches, [applyOptions], [updateMessage],
    attach and detach) leaves the list of ids in the store's Map unchanged; in particular a release
    never adds back a message removed during its drag. *)
Theorem X13_ids_frame h es s :
  forallb (fun e => negb (adds_or_removes e)) es = true ->
  map id (MessagesState._messages (_state (run h es s))) =
  map id (MessagesState._messages (_state s)).
Proof.
  revert s. induction es as [|e es IH]; intros s Hes; simpl; [reflexivity|].
  simpl in Hes. apply andb_true_iff in Hes as [He Hes].
  rewrite IH by exact Hes. apply ids_step. destruct (adds_or_removes e); [discriminate|reflexivity].
Qed.

Lemma X13_witness :
  forallb (fun e => negb (adds_or_removes e))
    [EChartMouseDown (110, 110); EDocMouseMove (120, 110); EDocMouseUp (120, 110);
     ESetPositioningMode Mfixed; EDetached] = true /\
  map id (MessagesState._messages
            (_state (run hostId [EChartMouseDown (110, 110); EDocMouseMove (120, 110);
                                 EDocMouseUp (120, 110); ESetPositioningMode Mfixed; EDetached]
                       stSetup))) = map id (MessagesState._messages (_state stSetup)).
Proof.
  assert (H : forallb (fun e => negb (adds_or_removes e))
    [EChartMouseDown (110, 110); EDocMouseMove (120, 110); EDocMouseUp (120, 110);
     ESetPositioningMode Mfixed; EDetached] = true) by reflexivity.
  split; [exact H|apply (X13_ids_frame hostId _ stSetup H)].
Defined.

(** X14: the constructor's store has its [messages()] refresh listener
    registered; [detached()] removes it (through [destroy()]) and no other
    event or method call changes whether it is registered, so once the
    primitive has been detached [messages()] stops following the Map for
    good, also after a later [attached()]. *)
Theorem X14_refresh_until_detached :
  (forall o, MessagesState._subscribed (_state (initial o)) = true) /\
  (forall h e s,
     MessagesState._subscribed (_state (step h e s)) =
     match e with EDetached => false | _ => MessagesState._subscribed (_state s) end).
Proof. split; [reflexivity|apply sub_step]. Qed.
